(** * bank_system.py: the record store, the identity service and the ledger service

    A shallow embedding of [DatabaseManager], [UserService] and [BankService]
    of [src/bank_system.py], and the properties of registration,
    authentication, account creation, deposit, withdrawal and transfer.

    Modelling conventions.
    - The SQLite file is a value of type [Database]: the [users] and
      [transactions] tables are lists of rows in insertion order, the
      [accounts] table is a finite map from its primary key [account_number]
      to the remaining columns.  The two AUTOINCREMENT counters are fields.
    - Everything a method reads from outside the database comes from an
      environment [Env], indexed by a counter [tick] that each interaction
      advances: whether a storage call raises [sqlite3.Error], what
      [datetime.now()] prints, what [random.randint] draws.
    - A method is a function [World -> outcome A * World]; [Raised] is a
      [sqlite3.Error] propagating out of the call.
    - The columns [balance], [overdraft_limit] and [amount] are REAL.  The
      first model takes amounts as exact integers: it is the program on
      integer-valued amounts (in any fixed unit) below 2^53 in magnitude,
      where binary64 arithmetic is exact.  The module [Doubles] takes them as
      binary64 floats, as the terminal interface passes them; the properties
      of balances that rest on more than comparisons and one addition or
      subtraction are stated there.
    - The text of a returned message is a constructor of [message] carrying the
      values the f-string interpolates. *)

From Stdlib Require Import ZArith Lia PrimFloat.
From stdpp Require Import base option list gmap strings pretty fin_maps sorting.

Local Open Scope string_scope.
Local Open Scope Z_scope.

(** ** Rows *)

(** A row of [users]. *)
Record User := mkUser {
  id : Z;
  first_name : string;
  last_name : string;
  date_of_birth : string;
  street : string;
  city : string;
  zip_code : string;
  country : string;
  phone_number : string;
  email : string;
  username : string;
  password_hash : string
}.

(** A row of [accounts], without its key [account_number]. *)
Record Account := mkAccount {
  user_id : Z;
  account_type : string;
  currency : string;
  balance : Z;
  overdraft_limit : Z;
  created_date : string
}.

(** A row of [transactions]. *)
Record Transaction := mkTransaction {
  txn_id : Z;
  account_number : string;
  transaction_type : string;
  amount : Z;
  description : string;
  timestamp : string
}.

Record Database := mkDatabase {
  users : list User;
  users_seq : Z;
  accounts : gmap string Account;
  transactions : list Transaction;
  transactions_seq : Z
}.

(** The database [init_database] creates on first use. *)
Definition init_database : Database :=
  mkDatabase [] 0 ∅ [] 0.

(** ** The environment and the world *)

(** The text of a [sqlite3.Error]. *)
Definition sqlite3_Error := string.

Record Env := mkEnv {
  sqlite_fault : nat -> option sqlite3_Error;
  clock_now : nat -> string;
  random_draw : nat -> Z
}.

Record World := mkWorld {
  env : Env;
  tick : nat;
  db : Database
}.

Definition advance (w : World) : World :=
  mkWorld (env w) (S (tick w)) (db w).

Definition commit (d : Database) (w : World) : World :=
  mkWorld (env w) (S (tick w)) d.

(** ** Methods as state transformers that may raise *)

Inductive outcome (A : Type) : Type :=
| Returned (a : A)
| Raised (e : sqlite3_Error).
Arguments Returned {A} a.
Arguments Raised {A} e.

Definition Py (A : Type) : Type := World -> outcome A * World.

Definition ret {A} (a : A) : Py A := fun w => (Returned a, w).

Definition bind {A B} (c : Py A) (k : A -> Py B) : Py B :=
  fun w =>
    match c w with
    | (Returned a, w1) => k a w1
    | (Raised e, w1) => (Raised e, w1)
    end.

(** [try: body except sqlite3.Error as e: handler e]. *)
Definition try_except {A} (body : Py A) (handler : sqlite3_Error -> Py A) : Py A :=
  fun w =>
    match body w with
    | (Returned a, w1) => (Returned a, w1)
    | (Raised e, w1) => handler e w1
    end.

Declare Scope py_scope.
Delimit Scope py_scope with py.
Notation "x <- c ;; k" := (bind c (fun x => k))
  (at level 100, c at next level, right associativity) : py_scope.
Notation "c ;;; k" := (bind c (fun _ => k))
  (at level 100, right associativity) : py_scope.
Local Open Scope py_scope.

(** [datetime.now().strftime("%Y-%m-%d %H:%M:%S")]. *)
Definition datetime_now : Py string :=
  fun w => (Returned (clock_now (env w) (tick w)), advance w).

(** [random.randint(lo, hi)]: a draw folded into [lo..hi]. *)
Definition random_randint (lo hi : Z) : Py Z :=
  fun w => (Returned (lo + random_draw (env w) (tick w) `mod` (hi - lo + 1)), advance w).

(** ** DatabaseManager *)

(** What a SQL statement does to the database: a constraint violation (an
    [sqlite3.IntegrityError]) or a result and the database after it. *)
Definition statement (A : Type) : Type := Database -> sqlite3_Error + A * Database.

(** [execute_query]: a fresh connection per call.  The call raises when the
    store fails or when the statement violates a constraint; the connection's
    context manager then rolls back, so the database is unchanged. *)
Definition execute_query {A} (query : statement A) : Py A :=
  fun w =>
    match sqlite_fault (env w) (tick w) with
    | Some e => (Raised e, advance w)
    | None =>
        match query (db w) with
        | inl e => (Raised e, advance w)
        | inr (a, d) => (Returned a, commit d w)
        end
    end.

(** [fetch_all_dict]: as [execute_query], every row returned. *)
Definition fetch_all_dict {A} (query : statement (list A)) : Py (list A) :=
  execute_query query.

(** ** The SQL statements of the services *)

Definition has_username (name : string) (u : User) : bool :=
  bool_decide (username u = name).

(** [SELECT id FROM users WHERE username = ?], first row. *)
Definition select_id_by_username (name : string) : statement (option Z) :=
  fun d => inr (id <$> List.find (has_username name) (users d), d).

(** [SELECT id, first_name, last_name, username, password_hash FROM users
    WHERE username = ?], first row. *)
Definition select_user_by_username (name : string) : statement (option User) :=
  fun d => inr (List.find (has_username name) (users d), d).

(** [INSERT INTO users (...) VALUES (...)]: [username] is UNIQUE, [id] is the
    next AUTOINCREMENT value; the result is [lastrowid]. *)
Definition insert_user (row : Z -> User) : statement Z :=
  fun d =>
    let new_id := users_seq d + 1 in
    if existsb (has_username (username (row new_id))) (users d)
    then inl "UNIQUE constraint failed: users.username"
    else inr (new_id,
              mkDatabase (users d ++ [row new_id]) new_id
                         (accounts d) (transactions d) (transactions_seq d)).

(** [INSERT INTO accounts (...) VALUES (...)]: [account_number] is the
    PRIMARY KEY. *)
Definition insert_account (number : string) (row : Account) : statement unit :=
  fun d =>
    match accounts d !! number with
    | Some _ => inl "UNIQUE constraint failed: accounts.account_number"
    | None =>
        inr (tt, mkDatabase (users d) (users_seq d)
                            (<[number := row]> (accounts d))
                            (transactions d) (transactions_seq d))
    end.

(** [SELECT * FROM accounts WHERE account_number = ?]. *)
Definition select_account (number : string) : statement (list Account) :=
  fun d => inr (option_list (accounts d !! number), d).

Definition add_balance (delta : Z) (a : Account) : Account :=
  mkAccount (user_id a) (account_type a) (currency a)
            (balance a + delta) (overdraft_limit a) (created_date a).

Definition sub_balance (delta : Z) (a : Account) : Account :=
  mkAccount (user_id a) (account_type a) (currency a)
            (balance a - delta) (overdraft_limit a) (created_date a).

Definition with_accounts (m : gmap string Account) (d : Database) : Database :=
  mkDatabase (users d) (users_seq d) m (transactions d) (transactions_seq d).

(** [UPDATE accounts SET balance = balance + ? WHERE account_number = ?]:
    no row matches an unknown number. *)
Definition update_balance_plus (delta : Z) (number : string) : statement unit :=
  fun d => inr (tt, with_accounts (alter (add_balance delta) number (accounts d)) d).

(** [UPDATE accounts SET balance = balance - ? WHERE account_number = ?]. *)
Definition update_balance_minus (delta : Z) (number : string) : statement unit :=
  fun d => inr (tt, with_accounts (alter (sub_balance delta) number (accounts d)) d).

Definition append_transaction (number kind : string) (amt : Z) (descr stamp : string)
    (d : Database) : Database :=
  mkDatabase (users d) (users_seq d) (accounts d)
             (transactions d ++
                [mkTransaction (transactions_seq d + 1) number kind amt descr stamp])
             (transactions_seq d + 1).

(** [INSERT INTO transactions (account_number, transaction_type, amount,
    description, timestamp) VALUES (?, kind, ?, ?, ?)]; the result is
    [lastrowid]. *)
Definition insert_transaction (number kind : string) (amt : Z) (descr stamp : string)
  : statement Z :=
  fun d => inr (transactions_seq d + 1, append_transaction number kind amt descr stamp d).

(** ** Messages

    Each constructor stands for one message text of the source. *)
Inductive message : Type :=
| UsernameTaken                 (* "Имя пользователя уже занято" *)
| Registered (new_id : Z)       (* f"Пользователь успешно зарегистрирован! ID: {user_id}" *)
| DatabaseError (e : sqlite3_Error)       (* f"Ошибка базы данных: {e}" *)
| AccountCreated (number : string)        (* f"Счет успешно создан! Номер: {account_number}" *)
| CreateAccountError (e : sqlite3_Error)  (* f"Ошибка при создании счета: {e}" *)
| AmountNotPositive             (* "Сумма должна быть положительной" *)
| AccountNotFound               (* "Счет не найден" *)
| Deposited (amt : Z) (cur : string)      (* f"Счет пополнен на {amount} {currency}" *)
| DepositError (e : sqlite3_Error)        (* f"Ошибка при пополнении: {e}" *)
| InsufficientFunds (available : Z) (cur : string)
                                (* f"Недостаточно средств. Доступно: {available} {currency}" *)
| Withdrawn (amt : Z) (cur : string)      (* f"Со счета снято {amount} {currency}" *)
| WithdrawError (e : sqlite3_Error)       (* f"Ошибка при снятии: {e}" *)
| SourceNotFound (number : string)        (* f"Счет отправителя {from_account} не найден" *)
| DestinationNotFound (number : string)   (* f"Счет получателя {to_account} не найден" *)
| CurrencyMismatch              (* "Нельзя переводить между счетами с разной валютой" *)
| SourceInsufficientFunds (available : Z)
                  (* f"Недостаточно средств на счете отправителя. Доступно: {available}" *)
| TransferDepositFailed         (* "Ошибка при переводе: не удалось зачислить средства" *)
| Transferred (amt : Z) (cur : string)    (* f"Перевод {amount} {currency} выполнен успешно" *)
| TransferError (e : sqlite3_Error).      (* f"Ошибка при переводе: {e}" *)

(** ** UserService *)

(** The argument [user_data] of [register_user]. *)
Record UserData := mkUserData {
  ud_first_name : string;
  ud_last_name : string;
  ud_date_of_birth : string;
  ud_street : string;
  ud_city : string;
  ud_zip_code : string;
  ud_country : string;
  ud_phone_number : string;
  ud_email : string;
  ud_username : string;
  ud_password : string
}.

(** What [authenticate] returns on a match. *)
Record UserSummary := mkUserSummary {
  us_id : Z;
  us_first_name : string;
  us_last_name : string;
  us_username : string
}.

Section UserService.

(** [hashlib.sha256(s.encode()).hexdigest()], a function of the Python
    library. *)
Variable sha256_hexdigest : string -> string.

Definition hash_password (password : string) : string :=
  sha256_hexdigest password.

Definition register_user (user_data : UserData) : Py (bool * message) :=
  try_except
    (existing <- execute_query (select_id_by_username (ud_username user_data)) ;;
     match existing with
     | Some _ => ret (false, UsernameTaken)
     | None =>
         let password_hash := hash_password (ud_password user_data) in
         new_id <- execute_query (insert_user (fun new_id =>
           mkUser new_id
                  (ud_first_name user_data) (ud_last_name user_data)
                  (ud_date_of_birth user_data)
                  (ud_street user_data) (ud_city user_data)
                  (ud_zip_code user_data) (ud_country user_data)
                  (ud_phone_number user_data) (ud_email user_data)
                  (ud_username user_data) password_hash)) ;;
         ret (true, Registered new_id)
     end)
    (fun e => ret (false, DatabaseError e)).

(** No [try] here: a [sqlite3.Error] leaves [authenticate] as [Raised]. *)
Definition authenticate (name password : string) : Py (option UserSummary) :=
  result <- execute_query (select_user_by_username name) ;;
  match result with
  | None => ret None
  | Some row =>
      if bool_decide (hash_password password = password_hash row)
      then ret (Some (mkUserSummary (id row) (first_name row) (last_name row)
                                    (username row)))
      else ret None
  end.

End UserService.

(** ** BankService *)

(** [f"40817810{random.randint(10000000, 99999999)}"]. *)
Definition generate_account_number : Py string :=
  n <- random_randint 10000000 99999999 ;;
  ret ("40817810" +:+ pretty n).

Definition create_account (uid : Z) (kind cur : string) (limit : Z) : Py (bool * message) :=
  try_except
    (number <- generate_account_number ;;
     created <- datetime_now ;;
     execute_query (insert_account number (mkAccount uid kind cur 0 limit created)) ;;;
     ret (true, AccountCreated number))
    (fun e => ret (false, CreateAccountError e)).

Definition get_account (number : string) : Py (option Account) :=
  result <- fetch_all_dict (select_account number) ;;
  ret (head result).

Definition deposit (number : string) (amt : Z) (descr : string) : Py (bool * message) :=
  if amt <=? 0 then ret (false, AmountNotPositive)
  else
    try_except
      (account <- get_account number ;;
       match account with
       | None => ret (false, AccountNotFound)
       | Some account =>
           execute_query (update_balance_plus amt number) ;;;
           stamp <- datetime_now ;;
           execute_query (insert_transaction number "DEPOSIT" amt descr stamp) ;;;
           ret (true, Deposited amt (currency account))
       end)
      (fun e => ret (false, DepositError e)).

Definition withdraw (number : string) (amt : Z) (descr : string) : Py (bool * message) :=
  if amt <=? 0 then ret (false, AmountNotPositive)
  else
    try_except
      (account <- get_account number ;;
       match account with
       | None => ret (false, AccountNotFound)
       | Some account =>
           let available := balance account + overdraft_limit account in
           if amt >? available
           then ret (false, InsufficientFunds available (currency account))
           else
             execute_query (update_balance_minus amt number) ;;;
             stamp <- datetime_now ;;
             execute_query (insert_transaction number "WITHDRAWAL" amt descr stamp) ;;;
             ret (true, Withdrawn amt (currency account))
       end)
      (fun e => ret (false, WithdrawError e)).

Definition transfer (from_account to_account : string) (amt : Z) (descr : string)
  : Py (bool * message) :=
  if amt <=? 0 then ret (false, AmountNotPositive)
  else
    try_except
      (from_acc <- get_account from_account ;;
       to_acc <- get_account to_account ;;
       match from_acc, to_acc with
       | None, _ => ret (false, SourceNotFound from_account)
       | Some _, None => ret (false, DestinationNotFound to_account)
       | Some from_acc, Some to_acc =>
           if negb (bool_decide (currency from_acc = currency to_acc))
           then ret (false, CurrencyMismatch)
           else
             let available := balance from_acc + overdraft_limit from_acc in
             if amt >? available
             then ret (false, SourceInsufficientFunds available)
             else
               result <- withdraw from_account amt
                   ("Перевод на счет " +:+ to_account +:+ ". " +:+ descr) ;;
               let (success, msg) := result in
               if negb success then ret (false, msg)
               else
                 result <- deposit to_account amt
                     ("Перевод со счета " +:+ from_account +:+ ". " +:+ descr) ;;
                 let (success, msg) := result in
                 if negb success
                 then
                   deposit from_account amt "Откат перевода" ;;;
                   ret (false, TransferDepositFailed)
                 else ret (true, Transferred amt (currency from_acc))
       end)
      (fun e => ret (false, TransferError e)).

(** ** The remaining queries *)

(** [SELECT * FROM users WHERE id = ?]. *)
Definition select_users_by_id (uid : Z) : statement (list User) :=
  fun d => inr (filter (fun u => id u = uid) (users d), d).

(** [UserService.get_user_info]. *)
Definition get_user_info (uid : Z) : Py (option User) :=
  result <- fetch_all_dict (select_users_by_id uid) ;;
  ret (head result).

(** A row of the listing of [get_accounts]: every column of [accounts] but
    [user_id]. *)
Record AccountRow := mkAccountRow {
  ar_account_number : string;
  ar_account_type : string;
  ar_currency : string;
  ar_balance : Z;
  ar_overdraft_limit : Z;
  ar_created_date : string
}.

Definition account_row (entry : string * Account) : AccountRow :=
  mkAccountRow (fst entry) (account_type (snd entry)) (currency (snd entry))
               (balance (snd entry)) (overdraft_limit (snd entry))
               (created_date (snd entry)).

(** [SELECT account_number, account_type, currency, balance, overdraft_limit,
    created_date FROM accounts WHERE user_id = ?].  The query has no ORDER BY:
    which rows come back is determined, their order is not; here it is the
    order of the map's enumeration. *)
Definition select_accounts_by_user (uid : Z) : statement (list AccountRow) :=
  fun d =>
    inr (account_row <$>
           filter (fun entry => user_id (snd entry) = uid) (map_to_list (accounts d)),
         d).

(** [BankService.get_accounts]. *)
Definition get_accounts (uid : Z) : Py (list AccountRow) :=
  fetch_all_dict (select_accounts_by_user uid).

(** A row of the history of [get_transactions]. *)
Record TransactionRow := mkTransactionRow {
  tr_transaction_type : string;
  tr_amount : Z;
  tr_description : string;
  tr_timestamp : string
}.

Definition transaction_row (t : Transaction) : TransactionRow :=
  mkTransactionRow (transaction_type t) (amount t) (description t) (timestamp t).

(** [ORDER BY timestamp DESC] on a TEXT column: bytewise comparison, the
    later text first. *)
Definition newer_first (t1 t2 : Transaction) : Prop :=
  String.leb (timestamp t2) (timestamp t1) = true.

Global Instance newer_first_dec t1 t2 : Decision (newer_first t1 t2).
Proof. unfold newer_first. apply _. Defined.

(** [LIMIT ?]: a negative limit is no limit. *)
Definition sql_limit {A} (limit : Z) (rows : list A) : list A :=
  if limit <? 0 then rows else take (Z.to_nat limit) rows.

(** The sorter of [ORDER BY timestamp DESC]: a row goes before the first row
    that is not newer than it, so rows with equal timestamps stay in
    insertion order. *)
Fixpoint insert_newer (t : Transaction) (rows : list Transaction) : list Transaction :=
  match rows with
  | [] => [t]
  | x :: rest =>
      if decide (newer_first t x) then t :: x :: rest else x :: insert_newer t rest
  end.

Definition order_by_timestamp_desc (rows : list Transaction) : list Transaction :=
  foldr insert_newer [] rows.

(** [SELECT transaction_type, amount, description, timestamp FROM transactions
    WHERE account_number = ? ORDER BY timestamp DESC LIMIT ?].  SQL leaves the
    order of rows with equal timestamps open; SQLite returns them in insertion
    order, and so does [order_by_timestamp_desc]. *)
Definition select_transactions (number : string) (limit : Z)
  : statement (list TransactionRow) :=
  fun d =>
    inr (transaction_row <$>
           sql_limit limit
             (order_by_timestamp_desc
                (filter (fun t => account_number t = number) (transactions d))),
         d).

(** [BankService.get_transactions]. *)
Definition get_transactions (number : string) (limit : Z) : Py (list TransactionRow) :=
  fetch_all_dict (select_transactions number limit).

(** [SELECT u.first_name, u.last_name, u.username FROM accounts a JOIN users u
    ON a.user_id = u.id WHERE a.account_number = ?], first row. *)
Definition select_account_owner (number : string)
  : statement (option (string * string * string)) :=
  fun d =>
    inr (a ← accounts d !! number;
         (fun u => (first_name u, last_name u, username u)) <$>
           head (filter (fun u => id u = user_id a) (users d)),
         d).

(** [BankService.get_account_owner]. *)
Definition get_account_owner (number : string) : Py (option (string * string * string)) :=
  execute_query (select_account_owner number).

(** ** BankSystemCLI.create_sample_data

    The calls it makes on the two services, which share one database file.
    What it prints, and its wait for Enter, are not modelled. *)

Definition user1_data : UserData :=
  mkUserData "Иван" "Иванов" "15.05.1990" "ул. Ленина, д. 10" "Москва" "101000"
             "Россия" "+79161234567" "ivanov@example.com" "ivanov" "password123".

Definition user2_data : UserData :=
  mkUserData "Мария" "Петрова" "22.08.1985" "пр. Мира, д. 25" "Санкт-Петербург"
             "190000" "Россия" "+78129876543" "petrova@example.com" "petrova"
             "qwerty456".

Definition create_sample_data (sha256_hexdigest : string -> string) : Py unit :=
  register_user sha256_hexdigest user1_data ;;;
  register_user sha256_hexdigest user2_data ;;;
  user1 <- authenticate sha256_hexdigest "ivanov" "password123" ;;
  match user1 with
  | Some user1 =>
      create_account (us_id user1) "Checking" "RUB" 5000 ;;;
      deposit "40817810123456789" 10000 "Начальный взнос" ;;;
      ret tt
  | None => ret tt
  end ;;;
  user2 <- authenticate sha256_hexdigest "petrova" "qwerty456" ;;
  match user2 with
  | Some user2 =>
      create_account (us_id user2) "Savings" "RUB" 0 ;;;
      deposit "40817810987654321" 5000 "Начальный взнос" ;;;
      ret tt
  | None => ret tt
  end.

(** * Vocabulary of the properties *)

(** The world [n] interactions after [w], with database [d]. *)
Definition later (n : nat) (d : Database) (w : World) : World :=
  mkWorld (env w) (n + tick w) d.

Definition credit (number : string) (amt : Z) (d : Database) : Database :=
  with_accounts (alter (add_balance amt) number (accounts d)) d.

Definition debit (number : string) (amt : Z) (d : Database) : Database :=
  with_accounts (alter (sub_balance amt) number (accounts d)) d.

(** No storage call raises from [w] on. *)
Definition storage_healthy (w : World) : Prop :=
  forall n : nat, (tick w <= n)%nat -> sqlite_fault (env w) n = None.

(** What an account may withdraw. *)
Definition available (a : Account) : Z := balance a + overdraft_limit a.

(** The invariant of an account row. *)
Definition within_overdraft (a : Account) : Prop :=
  balance a >= - overdraft_limit a.

(** The descriptions [transfer] gives to its two legs. *)
Definition transfer_out_description (to_account descr : string) : string :=
  "Перевод на счет " +:+ to_account +:+ ". " +:+ descr.

Definition transfer_in_description (from_account descr : string) : string :=
  "Перевод со счета " +:+ from_account +:+ ". " +:+ descr.

(** What [transfer] does once its own checks have passed, on the world [w2]
    after its two reads. *)
Definition transfer_legs (from_account to_account : string) (amt : Z) (descr : string)
    (a : Account) (w2 : World) : outcome (bool * message) * World :=
  match withdraw from_account amt (transfer_out_description to_account descr) w2 with
  | (Returned (false, msg), w3) => (Returned (false, msg), w3)
  | (Returned (true, _), w3) =>
      match deposit to_account amt (transfer_in_description from_account descr) w3 with
      | (Returned (false, _), w4) =>
          match deposit from_account amt "Откат перевода" w4 with
          | (Returned _, w5) => (Returned (false, TransferDepositFailed), w5)
          | (Raised e, w5) => (Returned (false, TransferError e), w5)
          end
      | (Returned (true, _), w4) => (Returned (true, Transferred amt (currency a)), w4)
      | (Raised e, w4) => (Returned (false, TransferError e), w4)
      end
  | (Raised e, w3) => (Returned (false, TransferError e), w3)
  end.


(** The account number [create_account] generates in world [w]. *)
Definition generated_number (w : World) : string :=
  "40817810" +:+
  pretty (10000000 + random_draw (env w) (tick w) `mod` (99999999 - 10000000 + 1)).
Arguments generated_number : simpl never.

(** A call of one of the mutating methods of [BankService]. *)
Inductive ledger_call : Type :=
| CallCreateAccount (uid : Z) (kind cur : string) (limit : Z)
| CallDeposit (number : string) (amt : Z) (descr : string)
| CallWithdraw (number : string) (amt : Z) (descr : string)
| CallTransfer (from_account to_account : string) (amt : Z) (descr : string).

(** The world after a call, whatever it returned. *)
Definition perform (c : ledger_call) (w : World) : World :=
  match c with
  | CallCreateAccount uid kind cur limit => snd (create_account uid kind cur limit w)
  | CallDeposit number amt descr => snd (deposit number amt descr w)
  | CallWithdraw number amt descr => snd (withdraw number amt descr w)
  | CallTransfer from_account to_account amt descr =>
      snd (transfer from_account to_account amt descr w)
  end.

Definition perform_all (cs : list ledger_call) (w : World) : World :=
  fold_left (fun w c => perform c w) cs w.

(** The row [register_user] inserts for [user_data] under the id [new_id]. *)
Definition user_row (sha256_hexdigest : string -> string) (user_data : UserData)
    (new_id : Z) : User :=
  mkUser new_id
         (ud_first_name user_data) (ud_last_name user_data)
         (ud_date_of_birth user_data)
         (ud_street user_data) (ud_city user_data)
         (ud_zip_code user_data) (ud_country user_data)
         (ud_phone_number user_data) (ud_email user_data)
         (ud_username user_data) (sha256_hexdigest (ud_password user_data)).

Definition with_new_user (u : User) (d : Database) : Database :=
  mkDatabase (users d ++ [u]) (id u) (accounts d) (transactions d) (transactions_seq d).

Definition summary_of (u : User) : UserSummary :=
  mkUserSummary (id u) (first_name u) (last_name u) (username u).

(** The UNIQUE constraint on [users.username]. *)
Definition usernames_unique (d : Database) : Prop :=
  NoDup (username <$> users d).

(** How many rows of [users] carry the username [name]. *)
Definition rows_named (name : string) (d : Database) : nat :=
  length (filter (fun u => username u = name) (users d)).

(** ** Sample data *)

(** An environment in which the store never fails. *)
Definition calm_env : Env :=
  mkEnv (fun _ => None) (fun _ => "2024-03-01 12:00:00") (fun n => Z.of_nat n).

Definition sample_accounts : gmap string Account :=
  <["4081781011111111" := mkAccount 1 "Checking" "RUB" 1000 500 "2024-01-10 09:00:00"]>
  (<["4081781022222222" := mkAccount 2 "Savings" "RUB" 0 0 "2024-01-11 09:00:00"]>
  (<["4081781033333333" := mkAccount 2 "Deposit" "USD" 70 0 "2024-01-12 09:00:00"]> ∅)).

Definition sample_world : World :=
  mkWorld calm_env 0 (mkDatabase [] 0 sample_accounts [] 0).

(** A fresh store in a calm environment. *)
Definition fresh_world : World := mkWorld calm_env 0 init_database.

(** The store fails at interactions 6 and 7 and at no other. *)
Definition outage_env : Env :=
  mkEnv (fun n => if bool_decide (n = 6%nat \/ n = 7%nat)
                  then Some "database is locked" else None)
        (fun _ => "2024-03-01 12:00:00") (fun n => Z.of_nat n).

(** The store fails at interaction 6 only. *)
Definition hiccup_env : Env :=
  mkEnv (fun n => if bool_decide (n = 6%nat) then Some "database is locked" else None)
        (fun _ => "2024-03-01 12:00:00") (fun n => Z.of_nat n).

(** A stand-in for SHA-256 in examples. *)
Definition toy_digest (s : string) : string := "digest:" +:+ s.

Definition alice : UserData :=
  mkUserData "Alice" "Ivanova" "01.02.1990" "Lenina 1" "Moscow" "101000" "Russia"
             "+70000000001" "alice@example.org" "alice" "correct horse".

Definition mallory : UserData :=
  mkUserData "Mallory" "Petrova" "03.04.1985" "Mira 2" "Kazan" "420000" "Russia"
             "+70000000002" "mallory@example.org" "alice" "hunter2".

(** ** Further vocabulary and sample data *)

(** The store fails at interaction 3 only: in a deposit or a withdrawal
    started at interaction 0, at the INSERT of the transaction row. *)
Definition log_outage_env : Env :=
  mkEnv (fun n => if bool_decide (n = 3%nat) then Some "disk I/O error" else None)
        (fun _ => "2024-03-01 12:00:00") (fun n => Z.of_nat n).

(** The store fails at interaction 0 only. *)
Definition down_env : Env :=
  mkEnv (fun n => if bool_decide (n = 0%nat) then Some "unable to open database file"
                  else None)
        (fun _ => "2024-03-01 12:00:00") (fun n => Z.of_nat n).

(** The store fails at interaction 9 only: in a transfer started at
    interaction 0, at the INSERT of the destination's DEPOSIT row. *)
Definition credit_log_outage_env : Env :=
  mkEnv (fun n => if bool_decide (n = 9%nat) then Some "disk I/O error" else None)
        (fun _ => "2024-03-01 12:00:00") (fun n => Z.of_nat n).

(** All columns of an account row but the balance. *)
Definition same_identity (a a' : Account) : Prop :=
  user_id a' = user_id a /\ account_type a' = account_type a
  /\ currency a' = currency a /\ overdraft_limit a' = overdraft_limit a
  /\ created_date a' = created_date a.

(** A row as [deposit] and [withdraw] write them. *)
Definition well_formed_row (t : Transaction) : Prop :=
  0 < amount t
  /\ (transaction_type t = "DEPOSIT" \/ transaction_type t = "WITHDRAWAL").

(** An account number as [generate_account_number] makes them. *)
Definition well_formed_number (number : string) : Prop :=
  exists n, 10000000 <= n <= 99999999 /\ number = "40817810" +:+ pretty n.

(** The world after registering the users of a list one after the other,
    whatever each call returned. *)
Definition register_all (sha256_hexdigest : string -> string) (l : list UserData)
    (w : World) : World :=
  fold_left (fun w user_data => snd (register_user sha256_hexdigest user_data w)) l w.

(** The AUTOINCREMENT counter of [users] bounds the ids in use, which are
    positive. *)
Definition ids_issued (d : Database) : Prop :=
  0 <= users_seq d /\ forall u, u ∈ users d -> 0 < id u <= users_seq d.

(** * The ledger on binary64 amounts

    The methods of [BankService] take the amount as Python gives it.  The
    model above takes it as a Python [int]; this module takes it as a Python
    [float], as the terminal interface passes it: the columns [balance],
    [overdraft_limit] and [amount] are REAL, so that [balance + ?] and
    [balance - ?] in SQL and [balance + overdraft_limit] in Python are
    additions and subtractions of IEEE 754 binary64 numbers, rounded to
    nearest, and the comparisons are those of binary64.  The definitions are
    those of the model above with [float] in place of [Z].

    SQLite holds no NaN (it stores NULL instead): a world of this module
    stands for a store only when its balances and limits are not NaN, and a
    call for a call of the program only when its amount is not NaN.  The
    properties below are stated for finite amounts, for which no operation of
    the ledger yields NaN from balances that are not NaN. *)
Set Warnings "-inexact-float".

Module Doubles.

Record Account := mkAccount {
  user_id : Z;
  account_type : string;
  currency : string;
  balance : float;
  overdraft_limit : float;
  created_date : string
}.

Record Transaction := mkTransaction {
  txn_id : Z;
  account_number : string;
  transaction_type : string;
  amount : float;
  description : string;
  timestamp : string
}.

Record Database := mkDatabase {
  users : list User;
  users_seq : Z;
  accounts : gmap string Account;
  transactions : list Transaction;
  transactions_seq : Z
}.

Definition init_database : Database :=
  mkDatabase [] 0 ∅ [] 0.

Record World := mkWorld {
  env : Env;
  tick : nat;
  db : Database
}.

Definition advance (w : World) : World :=
  mkWorld (env w) (S (tick w)) (db w).

Definition commit (d : Database) (w : World) : World :=
  mkWorld (env w) (S (tick w)) d.

Definition Py (A : Type) : Type := World -> outcome A * World.

Definition ret {A} (a : A) : Py A := fun w => (Returned a, w).

Definition bind {A B} (c : Py A) (k : A -> Py B) : Py B :=
  fun w =>
    match c w with
    | (Returned a, w1) => k a w1
    | (Raised e, w1) => (Raised e, w1)
    end.

Definition try_except {A} (body : Py A) (handler : sqlite3_Error -> Py A) : Py A :=
  fun w =>
    match body w with
    | (Returned a, w1) => (Returned a, w1)
    | (Raised e, w1) => handler e w1
    end.

Declare Scope py64_scope.
Notation "x <- c ;; k" := (bind c (fun x => k))
  (at level 100, c at next level, right associativity) : py64_scope.
Notation "c ;;; k" := (bind c (fun _ => k))
  (at level 100, right associativity) : py64_scope.
Local Open Scope py64_scope.

Definition datetime_now : Py string :=
  fun w => (Returned (clock_now (env w) (tick w)), advance w).

Definition random_randint (lo hi : Z) : Py Z :=
  fun w => (Returned (lo + random_draw (env w) (tick w) `mod` (hi - lo + 1)), advance w).

Definition statement (A : Type) : Type := Database -> sqlite3_Error + A * Database.

Definition execute_query {A} (query : statement A) : Py A :=
  fun w =>
    match sqlite_fault (env w) (tick w) with
    | Some e => (Raised e, advance w)
    | None =>
        match query (db w) with
        | inl e => (Raised e, advance w)
        | inr (a, d) => (Returned a, commit d w)
        end
    end.

Definition fetch_all_dict {A} (query : statement (list A)) : Py (list A) :=
  execute_query query.

Definition with_accounts (m : gmap string Account) (d : Database) : Database :=
  mkDatabase (users d) (users_seq d) m (transactions d) (transactions_seq d).

(** [INSERT INTO accounts (...) VALUES (...)]. *)
Definition insert_account (number : string) (row : Account) : statement unit :=
  fun d =>
    match accounts d !! number with
    | Some _ => inl "UNIQUE constraint failed: accounts.account_number"
    | None => inr (tt, with_accounts (<[number := row]> (accounts d)) d)
    end.

(** [SELECT * FROM accounts WHERE account_number = ?]. *)
Definition select_account (number : string) : statement (list Account) :=
  fun d => inr (option_list (accounts d !! number), d).

(** [balance + ?] on a REAL column. *)
Definition add_balance (delta : float) (a : Account) : Account :=
  mkAccount (user_id a) (account_type a) (currency a)
            (PrimFloat.add (balance a) delta) (overdraft_limit a) (created_date a).

(** [balance - ?] on a REAL column. *)
Definition sub_balance (delta : float) (a : Account) : Account :=
  mkAccount (user_id a) (account_type a) (currency a)
            (PrimFloat.sub (balance a) delta) (overdraft_limit a) (created_date a).

(** [UPDATE accounts SET balance = balance + ? WHERE account_number = ?]. *)
Definition update_balance_plus (delta : float) (number : string) : statement unit :=
  fun d => inr (tt, with_accounts (alter (add_balance delta) number (accounts d)) d).

(** [UPDATE accounts SET balance = balance - ? WHERE account_number = ?]. *)
Definition update_balance_minus (delta : float) (number : string) : statement unit :=
  fun d => inr (tt, with_accounts (alter (sub_balance delta) number (accounts d)) d).

Definition append_transaction (number kind : string) (amt : float) (descr stamp : string)
    (d : Database) : Database :=
  mkDatabase (users d) (users_seq d) (accounts d)
             (transactions d ++
                [mkTransaction (transactions_seq d + 1) number kind amt descr stamp])
             (transactions_seq d + 1).

(** [INSERT INTO transactions (...) VALUES (?, kind, ?, ?, ?)]. *)
Definition insert_transaction (number kind : string) (amt : float) (descr stamp : string)
  : statement Z :=
  fun d => inr (transactions_seq d + 1, append_transaction number kind amt descr stamp d).

(** The messages of [BankService], as in [message] above. *)
Inductive message : Type :=
| AccountCreated (number : string)
| CreateAccountError (e : sqlite3_Error)
| AmountNotPositive
| AccountNotFound
| Deposited (amt : float) (cur : string)
| DepositError (e : sqlite3_Error)
| InsufficientFunds (available : float) (cur : string)
| Withdrawn (amt : float) (cur : string)
| WithdrawError (e : sqlite3_Error)
| SourceNotFound (number : string)
| DestinationNotFound (number : string)
| CurrencyMismatch
| SourceInsufficientFunds (available : float)
| TransferDepositFailed
| Transferred (amt : float) (cur : string)
| TransferError (e : sqlite3_Error).

Definition generate_account_number : Py string :=
  n <- random_randint 10000000 99999999 ;;
  ret ("40817810" +:+ pretty n).

Definition create_account (uid : Z) (kind cur : string) (limit : float)
  : Py (bool * message) :=
  try_except
    (number <- generate_account_number ;;
     created <- datetime_now ;;
     execute_query (insert_account number
                      (mkAccount uid kind cur PrimFloat.zero limit created)) ;;;
     ret (true, AccountCreated number))
    (fun e => ret (false, CreateAccountError e)).

Definition get_account (number : string) : Py (option Account) :=
  result <- fetch_all_dict (select_account number) ;;
  ret (head result).

Definition deposit (number : string) (amt : float) (descr : string)
  : Py (bool * message) :=
  if PrimFloat.leb amt PrimFloat.zero then ret (false, AmountNotPositive)
  else
    try_except
      (account <- get_account number ;;
       match account with
       | None => ret (false, AccountNotFound)
       | Some account =>
           execute_query (update_balance_plus amt number) ;;;
           stamp <- datetime_now ;;
           execute_query (insert_transaction number "DEPOSIT" amt descr stamp) ;;;
           ret (true, Deposited amt (currency account))
       end)
      (fun e => ret (false, DepositError e)).

Definition withdraw (number : string) (amt : float) (descr : string)
  : Py (bool * message) :=
  if PrimFloat.leb amt PrimFloat.zero then ret (false, AmountNotPositive)
  else
    try_except
      (account <- get_account number ;;
       match account with
       | None => ret (false, AccountNotFound)
       | Some account =>
           let available := PrimFloat.add (balance account) (overdraft_limit account) in
           if PrimFloat.ltb available amt
           then ret (false, InsufficientFunds available (currency account))
           else
             execute_query (update_balance_minus amt number) ;;;
             stamp <- datetime_now ;;
             execute_query (insert_transaction number "WITHDRAWAL" amt descr stamp) ;;;
             ret (true, Withdrawn amt (currency account))
       end)
      (fun e => ret (false, WithdrawError e)).

Definition transfer (from_account to_account : string) (amt : float) (descr : string)
  : Py (bool * message) :=
  if PrimFloat.leb amt PrimFloat.zero then ret (false, AmountNotPositive)
  else
    try_except
      (from_acc <- get_account from_account ;;
       to_acc <- get_account to_account ;;
       match from_acc, to_acc with
       | None, _ => ret (false, SourceNotFound from_account)
       | Some _, None => ret (false, DestinationNotFound to_account)
       | Some from_acc, Some to_acc =>
           if negb (bool_decide (currency from_acc = currency to_acc))
           then ret (false, CurrencyMismatch)
           else
             let available :=
               PrimFloat.add (balance from_acc) (overdraft_limit from_acc) in
             if PrimFloat.ltb available amt
             then ret (false, SourceInsufficientFunds available)
             else
               result <- withdraw from_account amt
                   ("Перевод на счет " +:+ to_account +:+ ". " +:+ descr) ;;
               let (success, msg) := result in
               if negb success then ret (false, msg)
               else
                 result <- deposit to_account amt
                     ("Перевод со счета " +:+ from_account +:+ ". " +:+ descr) ;;
                 let (success, msg) := result in
                 if negb success
                 then
                   deposit from_account amt "Откат перевода" ;;;
                   ret (false, TransferDepositFailed)
                 else ret (true, Transferred amt (currency from_acc))
       end)
      (fun e => ret (false, TransferError e)).

(** ** Vocabulary *)

Definition later (n : nat) (d : Database) (w : World) : World :=
  mkWorld (env w) (n + tick w) d.

Definition credit (number : string) (amt : float) (d : Database) : Database :=
  with_accounts (alter (add_balance amt) number (accounts d)) d.

Definition debit (number : string) (amt : float) (d : Database) : Database :=
  with_accounts (alter (sub_balance amt) number (accounts d)) d.

Definition storage_healthy (w : World) : Prop :=
  forall n : nat, (tick w <= n)%nat -> sqlite_fault (env w) n = None.

(** [balance + overdraft_limit], as Python adds the two floats. *)
Definition available (a : Account) : float :=
  PrimFloat.add (balance a) (overdraft_limit a).

(** [balance >= -overdraft_limit] does not hold: in binary64,
    [balance < -overdraft_limit]. *)
Definition below_limit (a : Account) : bool :=
  PrimFloat.ltb (balance a) (PrimFloat.opp (overdraft_limit a)).

(** A row SQLite can hold: neither REAL column is NaN. *)
Definition stored (a : Account) : Prop :=
  PrimFloat.is_nan (balance a) = false /\ PrimFloat.is_nan (overdraft_limit a) = false.

Definition set_balance (b : float) (a : Account) : Account :=
  mkAccount (user_id a) (account_type a) (currency a) b (overdraft_limit a)
            (created_date a).

Definition transfer_legs (from_account to_account : string) (amt : float)
    (descr : string) (a : Account) (w2 : World) : outcome (bool * message) * World :=
  match withdraw from_account amt (transfer_out_description to_account descr) w2 with
  | (Returned (false, msg), w3) => (Returned (false, msg), w3)
  | (Returned (true, _), w3) =>
      match deposit to_account amt (transfer_in_description from_account descr) w3 with
      | (Returned (false, _), w4) =>
          match deposit from_account amt "Откат перевода" w4 with
          | (Returned _, w5) => (Returned (false, TransferDepositFailed), w5)
          | (Raised e, w5) => (Returned (false, TransferError e), w5)
          end
      | (Returned (true, _), w4) => (Returned (true, Transferred amt (currency a)), w4)
      | (Raised e, w4) => (Returned (false, TransferError e), w4)
      end
  | (Raised e, w3) => (Returned (false, TransferError e), w3)
  end.

Definition generated_number (w : World) : string :=
  "40817810" +:+
  pretty (10000000 + random_draw (env w) (tick w) `mod` (99999999 - 10000000 + 1)).
Arguments generated_number : simpl never.











(** ** Sample data *)

Definition fresh_world : World := mkWorld calm_env 0 init_database.

Definition sample_accounts : gmap string Account :=
  <["4081781011111111" :=
      mkAccount 1 "Checking" "RUB" 0.01%float 0.5%float "2024-01-10 09:00:00"]>
  (<["4081781022222222" :=
       mkAccount 2 "Savings" "RUB" 0.1%float 0%float "2024-01-11 09:00:00"]> ∅).

(** The sample accounts in the environment [e]. *)
Definition sample_world (e : Env) : World :=
  mkWorld e 0 (mkDatabase [] 0 sample_accounts [] 0).

End Doubles.

(** * Properties *)

(** ** Running the methods *)

Lemma head_option_list {A} (o : option A) : head (option_list o) = o.
Proof. by destruct o. Qed.

Lemma get_account_run number w :
  get_account number w =
    match sqlite_fault (env w) (tick w) with
    | Some e => (Raised e, later 1 (db w) w)
    | None => (Returned (accounts (db w) !! number), later 1 (db w) w)
    end.
Proof.
  unfold get_account, fetch_all_dict, bind, execute_query, select_account, ret.
  destruct (sqlite_fault _ _); [done|].
  by rewrite head_option_list.
Qed.

Lemma deposit_run number amt descr w :
  deposit number amt descr w =
    if amt <=? 0 then (Returned (false, AmountNotPositive), w)
    else
      match sqlite_fault (env w) (tick w) with
      | Some e => (Returned (false, DepositError e), later 1 (db w) w)
      | None =>
          match accounts (db w) !! number with
          | None => (Returned (false, AccountNotFound), later 1 (db w) w)
          | Some a =>
              match sqlite_fault (env w) (1 + tick w) with
              | Some e => (Returned (false, DepositError e), later 2 (db w) w)
              | None =>
                  let d1 := credit number amt (db w) in
                  match sqlite_fault (env w) (3 + tick w) with
                  | Some e => (Returned (false, DepositError e), later 4 d1 w)
                  | None =>
                      (Returned (true, Deposited amt (currency a)),
                       later 4 (append_transaction number "DEPOSIT" amt descr
                                  (clock_now (env w) (2 + tick w)) d1) w)
                  end
              end
          end
      end.
Proof.
  unfold deposit. destruct (amt <=? 0); [done|].
  unfold try_except, bind at 1. rewrite get_account_run.
  destruct (sqlite_fault (env w) (tick w)); [done|].
  destruct (accounts (db w) !! number); [|done].
  unfold bind, execute_query, datetime_now, ret; simpl.
  destruct (sqlite_fault (env w) (S (tick w))); simpl; [done|].
  by destruct (sqlite_fault (env w) (S (S (S (tick w))))).
Qed.

Lemma withdraw_run number amt descr w :
  withdraw number amt descr w =
    if amt <=? 0 then (Returned (false, AmountNotPositive), w)
    else
      match sqlite_fault (env w) (tick w) with
      | Some e => (Returned (false, WithdrawError e), later 1 (db w) w)
      | None =>
          match accounts (db w) !! number with
          | None => (Returned (false, AccountNotFound), later 1 (db w) w)
          | Some a =>
              let available := balance a + overdraft_limit a in
              if amt >? available
              then (Returned (false, InsufficientFunds available (currency a)),
                    later 1 (db w) w)
              else
                match sqlite_fault (env w) (1 + tick w) with
                | Some e => (Returned (false, WithdrawError e), later 2 (db w) w)
                | None =>
                    let d1 := debit number amt (db w) in
                    match sqlite_fault (env w) (3 + tick w) with
                    | Some e => (Returned (false, WithdrawError e), later 4 d1 w)
                    | None =>
                        (Returned (true, Withdrawn amt (currency a)),
                         later 4 (append_transaction number "WITHDRAWAL" amt descr
                                    (clock_now (env w) (2 + tick w)) d1) w)
                    end
                end
          end
      end.
Proof.
  unfold withdraw. destruct (amt <=? 0); [done|].
  unfold try_except, bind at 1. rewrite get_account_run.
  destruct (sqlite_fault (env w) (tick w)); [done|].
  destruct (accounts (db w) !! number) as [a|]; [|done].
  cbv zeta. destruct (amt >? _); [done|].
  unfold bind, execute_query, datetime_now, ret; simpl.
  destruct (sqlite_fault (env w) (S (tick w))); simpl; [done|].
  by destruct (sqlite_fault (env w) (S (S (S (tick w))))).
Qed.

Lemma transfer_run from_account to_account amt descr w :
  transfer from_account to_account amt descr w =
    if amt <=? 0 then (Returned (false, AmountNotPositive), w)
    else
      match sqlite_fault (env w) (tick w) with
      | Some e => (Returned (false, TransferError e), later 1 (db w) w)
      | None =>
          match sqlite_fault (env w) (1 + tick w) with
          | Some e => (Returned (false, TransferError e), later 2 (db w) w)
          | None =>
              match accounts (db w) !! from_account, accounts (db w) !! to_account with
              | None, _ =>
                  (Returned (false, SourceNotFound from_account), later 2 (db w) w)
              | Some _, None =>
                  (Returned (false, DestinationNotFound to_account), later 2 (db w) w)
              | Some a, Some b =>
                  if negb (bool_decide (currency a = currency b))
                  then (Returned (false, CurrencyMismatch), later 2 (db w) w)
                  else if amt >? available a
                  then (Returned (false, SourceInsufficientFunds (available a)),
                        later 2 (db w) w)
                  else transfer_legs from_account to_account amt descr a
                                     (later 2 (db w) w)
              end
          end
      end.
Proof.
  unfold transfer. destruct (amt <=? 0); [done|].
  unfold try_except, bind at 1. rewrite get_account_run.
  destruct (sqlite_fault (env w) (tick w)); [done|].
  unfold bind at 1. rewrite get_account_run. simpl.
  destruct (sqlite_fault (env w) (S (tick w))); [done|].
  destruct (accounts (db w) !! from_account) as [a|]; [|done].
  destruct (accounts (db w) !! to_account) as [b|]; [|done].
  destruct (negb _); [done|]. unfold available.
  destruct (amt >? _); [done|].
  unfold transfer_legs, transfer_out_description, transfer_in_description, later.
  unfold bind at 1. simpl.
  destruct (withdraw _ _ _ _) as [[[[|] msg]|e] w3]; simpl; try done.
  unfold bind at 1.
  destruct (deposit _ _ _ _) as [[[[|] msg']|e] w4]; simpl; try done.
  unfold bind at 1.
  by destruct (deposit _ _ _ _) as [[r|e] w5].
Qed.

Lemma alter_to_insert (f : Account -> Account) (k : string) (a : Account)
    (m : gmap string Account) :
  m !! k = Some a -> alter f k m = <[k := f a]> m.
Proof.
  intros Hk. apply map_eq. intros j.
  destruct (decide (k = j)) as [->|Hne].
  - by rewrite lookup_alter_eq, lookup_insert_eq, Hk.
  - by rewrite lookup_alter_ne, lookup_insert_ne.
Qed.


Lemma deposit_success number amt descr w m w' :
  deposit number amt descr w = (Returned (true, m), w') ->
  exists a,
    accounts (db w) !! number = Some a /\ 0 < amt /\
    m = Deposited amt (currency a) /\
    w' = later 4 (append_transaction number "DEPOSIT" amt descr
                    (clock_now (env w) (2 + tick w)) (credit number amt (db w))) w.
Proof.
  rewrite deposit_run. intros Hrun.
  destruct (Z.leb_spec amt 0); [done|].
  destruct (sqlite_fault (env w) (tick w)); [done|].
  destruct (accounts (db w) !! number) as [a|]; [|done].
  destruct (sqlite_fault (env w) (1 + tick w)); [done|].
  cbv zeta in Hrun.
  destruct (sqlite_fault (env w) (3 + tick w)); [done|].
  exists a. by simplify_eq.
Qed.

Lemma withdraw_success number amt descr w m w' :
  withdraw number amt descr w = (Returned (true, m), w') ->
  exists a,
    accounts (db w) !! number = Some a /\ 0 < amt <= available a /\
    m = Withdrawn amt (currency a) /\
    w' = later 4 (append_transaction number "WITHDRAWAL" amt descr
                    (clock_now (env w) (2 + tick w)) (debit number amt (db w))) w.
Proof.
  rewrite withdraw_run. intros Hrun.
  destruct (Z.leb_spec amt 0); [done|].
  destruct (sqlite_fault (env w) (tick w)); [done|].
  destruct (accounts (db w) !! number) as [a|]; [|done].
  cbv zeta in Hrun.
  destruct (Z.gtb_spec amt (balance a + overdraft_limit a)); [done|].
  destruct (sqlite_fault (env w) (1 + tick w)); [done|].
  destruct (sqlite_fault (env w) (3 + tick w)); [done|].
  exists a. unfold available. by simplify_eq.
Qed.

Lemma transfer_success from_account to_account amt descr w m w' :
  transfer from_account to_account amt descr w = (Returned (true, m), w') ->
  exists a b w3 mw md,
    accounts (db w) !! from_account = Some a /\
    accounts (db w) !! to_account = Some b /\
    currency a = currency b /\
    m = Transferred amt (currency a) /\
    withdraw from_account amt (transfer_out_description to_account descr)
             (later 2 (db w) w) = (Returned (true, mw), w3) /\
    deposit to_account amt (transfer_in_description from_account descr) w3
      = (Returned (true, md), w').
Proof.
  rewrite transfer_run. intros Hrun.
  destruct (amt <=? 0); [done|].
  destruct (sqlite_fault (env w) (tick w)); [done|].
  destruct (sqlite_fault (env w) (1 + tick w)); [done|].
  destruct (accounts (db w) !! from_account) as [a|]; [|done].
  destruct (accounts (db w) !! to_account) as [b|]; [|done].
  case_bool_decide as Hcur; [|done]. simpl in Hrun.
  destruct (amt >? available a); [done|].
  unfold transfer_legs in Hrun.
  destruct (withdraw _ _ _ _) as [[[[|] mw]|e] w3]; [|done..].
  destruct (deposit _ _ _ w3) as [[[[|] md]|e] w4] eqn:Hd; [| |done].
  - exists a, b, w3, mw, md. by simplify_eq.
  - by destruct (deposit _ _ _ w4) as [[r|e] w5].
Qed.

(** ** Transfer between two accounts *)

(** C1.  A successful [transfer] between two distinct accounts [A] and [B] of
    one currency, of an amount [X] with [0 < X <= balance + overdraft_limit]
    of [A], leaves the [accounts] table as it was except that the balance of
    [A] is lower by [X] and the balance of [B] higher by [X], appends to
    [transactions] exactly two rows, a WITHDRAWAL of [X] on [A] and then a
    DEPOSIT of [X] on [B], and leaves [users] alone. *)
Theorem transfer_moves_funds (A B : string) (X : Z) (descr : string) (w w' : World)
    (a b : Account) (m : message) :
  A ≠ B ->
  accounts (db w) !! A = Some a ->
  accounts (db w) !! B = Some b ->
  currency a = currency b ->
  0 < X <= balance a + overdraft_limit a ->
  transfer A B X descr w = (Returned (true, m), w') ->
  accounts (db w') =
    <[B := add_balance X b]> (<[A := sub_balance X a]> (accounts (db w)))
  /\ transactions (db w') =
       (transactions (db w) ++
         [ mkTransaction (transactions_seq (db w) + 1) A "WITHDRAWAL" X
             (transfer_out_description B descr) (clock_now (env w) (4 + tick w));
           mkTransaction (transactions_seq (db w) + 1 + 1) B "DEPOSIT" X
             (transfer_in_description A descr) (clock_now (env w) (8 + tick w)) ])%list
  /\ users (db w') = users (db w).
Proof.
  intros Hne Ha Hb Hcur [Hpos Hav] Hrun.
  apply transfer_success in Hrun as (a' & b' & w3 & mw & md & Ha' & Hb' & _ & _ & Hw & Hd).
  simplify_eq.
  apply withdraw_success in Hw as (a' & Ha' & _ & _ & ->).
  apply deposit_success in Hd as (b' & Hb' & _ & _ & ->).
  simpl in *. simplify_eq.
  rewrite lookup_alter_ne in Hb' by done. simplify_eq.
  split_and!.
  - rewrite (alter_to_insert _ A a) by done.
    apply alter_to_insert. by rewrite lookup_insert_ne.
  - by rewrite <- app_assoc.
  - done.
Qed.
Lemma transfer_moves_funds_witness :
  let w := sample_world in
  let w' := snd (transfer "4081781011111111" "4081781022222222" 1200 "rent" w) in
  accounts (db w') =
    <["4081781022222222" := mkAccount 2 "Savings" "RUB" 1200 0 "2024-01-11 09:00:00"]>
      (<["4081781011111111" :=
           mkAccount 1 "Checking" "RUB" (-200) 500 "2024-01-10 09:00:00"]>
         sample_accounts)
  /\ length (transactions (db w')) = 2%nat.
Proof.
  intros w w'.
  destruct (transfer_moves_funds "4081781011111111" "4081781022222222" 1200 "rent"
              w w'
              (mkAccount 1 "Checking" "RUB" 1000 500 "2024-01-10 09:00:00")
              (mkAccount 2 "Savings" "RUB" 0 0 "2024-01-11 09:00:00")
              (Transferred 1200 "RUB")) as (Hacc & Htx & _).
  - done.
  - reflexivity.
  - reflexivity.
  - reflexivity.
  - simpl; lia.
  - vm_compute. reflexivity.
  - split; [exact Hacc | rewrite Htx; reflexivity].
Defined.

(** ** Runs without storage failure *)

Lemma storage_healthy_now w : storage_healthy w -> sqlite_fault (env w) (tick w) = None.
Proof. intros H. by apply H. Qed.

Lemma storage_healthy_at w n :
  storage_healthy w -> sqlite_fault (env w) (n + tick w) = None.
Proof. intros H. apply H. lia. Qed.

Lemma storage_healthy_later n d w : storage_healthy w -> storage_healthy (later n d w).
Proof. intros H k Hk. apply H. simpl in Hk. lia. Qed.

Lemma deposit_healthy number amt descr w a :
  storage_healthy w ->
  accounts (db w) !! number = Some a ->
  0 < amt ->
  deposit number amt descr w =
    (Returned (true, Deposited amt (currency a)),
     later 4 (append_transaction number "DEPOSIT" amt descr
                (clock_now (env w) (2 + tick w)) (credit number amt (db w))) w).
Proof.
  intros Hw Ha Hpos. rewrite deposit_run, Ha.
  destruct (Z.leb_spec amt 0); [lia|].
  rewrite (storage_healthy_now w), (storage_healthy_at w 1), (storage_healthy_at w 3)
    by done.
  done.
Qed.

Lemma withdraw_healthy number amt descr w a :
  storage_healthy w ->
  accounts (db w) !! number = Some a ->
  0 < amt <= available a ->
  withdraw number amt descr w =
    (Returned (true, Withdrawn amt (currency a)),
     later 4 (append_transaction number "WITHDRAWAL" amt descr
                (clock_now (env w) (2 + tick w)) (debit number amt (db w))) w).
Proof.
  intros Hw Ha [Hpos Hav]. rewrite withdraw_run, Ha. unfold available in Hav.
  destruct (Z.leb_spec amt 0); [lia|]. cbv zeta.
  destruct (Z.gtb_spec amt (balance a + overdraft_limit a)); [lia|].
  rewrite (storage_healthy_now w), (storage_healthy_at w 1), (storage_healthy_at w 3)
    by done.
  done.
Qed.

(** ** Preconditions *)



(** C4.  [withdraw] while the store does not fail.  On an existing account
    an amount [X] above [balance + overdraft_limit] is refused for
    insufficient funds, the message carrying that available amount, and the
    database is as before; this holds for every such [X] when the account is
    within its overdraft limit, and for every positive such [X] in general.
    An amount [X] with [0 < X <= balance + overdraft_limit], the bound
    included, is withdrawn: the balance is lower by [X] and one WITHDRAWAL row
    of [X] is appended.  A non-positive amount is refused as not positive and
    nothing at all changes; a positive amount on an unknown account is refused
    as not found and the database is as before. *)
Theorem withdraw_preconditions (number : string) (X : Z) (descr : string) (w : World) :
  storage_healthy w ->
  (X <= 0 ->
     withdraw number X descr w = (Returned (false, AmountNotPositive), w))
  /\ (0 < X -> accounts (db w) !! number = None ->
        exists w',
          withdraw number X descr w = (Returned (false, AccountNotFound), w')
          /\ db w' = db w)
  /\ (forall a, accounts (db w) !! number = Some a ->
        X > balance a + overdraft_limit a ->
        0 < X \/ within_overdraft a ->
        exists w',
          withdraw number X descr w =
            (Returned (false, InsufficientFunds (balance a + overdraft_limit a)
                                (currency a)), w')
          /\ db w' = db w)
  /\ (forall a, accounts (db w) !! number = Some a ->
        0 < X <= balance a + overdraft_limit a ->
        exists w',
          withdraw number X descr w = (Returned (true, Withdrawn X (currency a)), w')
          /\ accounts (db w') = <[number := sub_balance X a]> (accounts (db w))
          /\ transactions (db w') =
               (transactions (db w) ++
                  [mkTransaction (transactions_seq (db w) + 1) number "WITHDRAWAL" X
                     descr (clock_now (env w) (2 + tick w))])%list
          /\ users (db w') = users (db w)).
Proof.
  intros Hw. split_and!.
  - intros Hx. rewrite withdraw_run. by destruct (Z.leb_spec X 0); [|lia].
  - intros Hx Hnone. rewrite withdraw_run, Hnone, (storage_healthy_now w) by done.
    destruct (Z.leb_spec X 0); [lia|]. by eexists.
  - intros a Ha Hav Hx. rewrite withdraw_run, Ha, (storage_healthy_now w) by done.
    destruct (Z.leb_spec X 0); [unfold within_overdraft in Hx; lia|]. cbv zeta.
    destruct (Z.gtb_spec X (balance a + overdraft_limit a)); [|lia]. by eexists.
  - intros a Ha Hx. rewrite (withdraw_healthy _ _ _ _ a) by done.
    eexists. split; [reflexivity|]. simpl. split_and!; [|done..].
    by apply alter_to_insert.
Qed.

Lemma withdraw_preconditions_witness :
  exists w',
    withdraw "4081781011111111" 1500 "cash" sample_world
      = (Returned (true, Withdrawn 1500 "RUB"), w')
    /\ accounts (db w') !! "4081781011111111"
       = Some (mkAccount 1 "Checking" "RUB" (-500) 500 "2024-01-10 09:00:00").
Proof.
  destruct (withdraw_preconditions "4081781011111111" 1500 "cash" sample_world)
    as (_ & _ & _ & Hok).
  - intros n _. reflexivity.
  - destruct (Hok (mkAccount 1 "Checking" "RUB" 1000 500 "2024-01-10 09:00:00"))
      as (w' & Hrun & Hacc & _).
    + reflexivity.
    + simpl; lia.
    + exists w'. split; [exact Hrun|]. rewrite Hacc. reflexivity.
Defined.

(** ** Account creation *)

Lemma create_account_run uid kind cur limit w :
  create_account uid kind cur limit w =
    let number := generated_number w in
    match sqlite_fault (env w) (2 + tick w) with
    | Some e => (Returned (false, CreateAccountError e), later 3 (db w) w)
    | None =>
        match accounts (db w) !! number with
        | Some _ =>
            (Returned (false, CreateAccountError
                                "UNIQUE constraint failed: accounts.account_number"),
             later 3 (db w) w)
        | None =>
            (Returned (true, AccountCreated number),
             later 3 (with_accounts
                        (<[number := mkAccount uid kind cur 0 limit
                                       (clock_now (env w) (1 + tick w))]>
                           (accounts (db w)))
                        (db w)) w)
        end
    end.
Proof.
  unfold create_account, try_except, bind, generate_account_number, random_randint,
    datetime_now, execute_query, insert_account, ret, generated_number. simpl.
  destruct (sqlite_fault (env w) (S (S (tick w)))); [done|].
  by destruct (accounts (db w) !! _).
Qed.

(** ** The scenario of the specification *)

(** The scenario of the specification: limit 5000, deposit 10000, withdraw
    12000 into the overdraft, then 3001 is refused with 3000 available. *)
Example overdraft_scenario :
  let w1 := snd (create_account 1 "Checking" "RUB" 5000 fresh_world) in
  let w2 := perform_all [CallDeposit "4081781010000000" 10000 "";
                         CallWithdraw "4081781010000000" 12000 ""] w1 in
  balance <$> accounts (db w2) !! "4081781010000000" = Some (-2000)
  /\ fst (withdraw "4081781010000000" 3001 "" w2)
     = Returned (false, InsufficientFunds 3000 "RUB")
  /\ db (snd (withdraw "4081781010000000" 3001 "" w2)) = db w2.
Proof. vm_compute. done. Qed.



(** ** The compensating deposit of transfer *)

Lemma deposit_returns number amt descr w :
  exists r w', deposit number amt descr w = (Returned r, w').
Proof.
  rewrite deposit_run.
  destruct (amt <=? 0); [by eauto|].
  destruct (sqlite_fault (env w) (tick w)); [by eauto|].
  destruct (accounts (db w) !! number); [|by eauto].
  destruct (sqlite_fault (env w) (1 + tick w)); [by eauto|]. cbv zeta.
  destruct (sqlite_fault (env w) (3 + tick w)); by eauto.
Qed.

(** Once the withdrawal has succeeded and the deposit has failed, the message
    of [transfer] does not depend on what the compensating deposit returns. *)
Lemma compensation_result_discarded from_account to_account amt descr a w2 mw w3 md w4 :
  withdraw from_account amt (transfer_out_description to_account descr) w2
    = (Returned (true, mw), w3) ->
  deposit to_account amt (transfer_in_description from_account descr) w3
    = (Returned (false, md), w4) ->
  transfer_legs from_account to_account amt descr a w2
    = (Returned (false, TransferDepositFailed),
       snd (deposit from_account amt "Откат перевода" w4)).
Proof.
  intros Hw Hd. unfold transfer_legs. rewrite Hw, Hd.
  by destruct (deposit_returns from_account amt "Откат перевода" w4) as (r & w5 & ->).
Qed.

(** C2.  The withdrawal succeeds, the deposit into the destination fails and
    so does the compensating deposit into the source: [transfer] returns the
    message it returns when the compensation succeeds, although the source is
    300 short and the destination has received nothing. *)
Example transfer_compensation_failure_unreported :
  let lost := transfer "4081781011111111" "4081781022222222" 300 ""
                (mkWorld outage_env 0 (db sample_world)) in
  let undone := transfer "4081781011111111" "4081781022222222" 300 ""
                  (mkWorld hiccup_env 0 (db sample_world)) in
  fst lost = Returned (false, TransferDepositFailed)
  /\ fst undone = Returned (false, TransferDepositFailed)
  /\ balance <$> accounts (db (snd lost)) !! "4081781011111111" = Some 700
  /\ balance <$> accounts (db (snd lost)) !! "4081781022222222" = Some 0
  /\ balance <$> accounts (db (snd undone)) !! "4081781011111111" = Some 1000.
Proof. vm_compute. done. Qed.

(** ** Registration and authentication *)

Lemma find_username_None name (l : list User) :
  List.find (has_username name) l = None <->
  forall u, u ∈ l -> username u ≠ name.
Proof.
  induction l as [|x l IH]; simpl.
  - split; [|done]. intros _ u Hu. by apply elem_of_nil in Hu.
  - unfold has_username at 1. case_bool_decide as Hx.
    + split; [done|]. intros H. exfalso. apply (H x); [left|done].
    + rewrite IH. split.
      * intros H u Hu. apply elem_of_cons in Hu as [->|Hu]; auto.
      * intros H u Hu. apply H. by right.
Qed.

Lemma find_username_Some name (l : list User) u :
  NoDup (username <$> l) ->
  List.find (has_username name) l = Some u <-> u ∈ l /\ username u = name.
Proof.
  induction l as [|x l IH]; simpl; intros Hnd.
  - split; [done|]. intros [Hu _]. by apply elem_of_nil in Hu.
  - apply NoDup_cons in Hnd as [Hx Hnd].
    unfold has_username at 1. case_bool_decide as Hname.
    + split.
      * intros [= ->]. split; [left|done].
      * intros [Hu Hun]. apply elem_of_cons in Hu as [->|Hu]; [done|].
        exfalso. apply Hx. rewrite Hname, <- Hun. by apply list_elem_of_fmap_2.
    + rewrite IH by done. split.
      * intros [Hu Hun]. split; [by right|done].
      * intros [Hu Hun]. apply elem_of_cons in Hu as [->|Hu]; [done|]. done.
Qed.

Lemma find_None_existsb name (l : list User) :
  List.find (has_username name) l = None -> existsb (has_username name) l = false.
Proof.
  induction l as [|x l IH]; simpl; [done|].
  destruct (has_username name x); [done|]. simpl. exact IH.
Qed.

Lemma authenticate_run sha name password w :
  authenticate sha name password w =
    match sqlite_fault (env w) (tick w) with
    | Some e => (Raised e, later 1 (db w) w)
    | None =>
        match List.find (has_username name) (users (db w)) with
        | None => (Returned None, later 1 (db w) w)
        | Some u =>
            if bool_decide (sha password = password_hash u)
            then (Returned (Some (summary_of u)), later 1 (db w) w)
            else (Returned None, later 1 (db w) w)
        end
    end.
Proof.
  unfold authenticate, bind, execute_query, select_user_by_username, hash_password, ret.
  destruct (sqlite_fault _ _); [done|]. simpl.
  destruct (List.find _ _); [|done].
  by case_bool_decide.
Qed.

Lemma register_user_run sha user_data w :
  register_user sha user_data w =
    match sqlite_fault (env w) (tick w) with
    | Some e => (Returned (false, DatabaseError e), later 1 (db w) w)
    | None =>
        match List.find (has_username (ud_username user_data)) (users (db w)) with
        | Some _ => (Returned (false, UsernameTaken), later 1 (db w) w)
        | None =>
            match sqlite_fault (env w) (1 + tick w) with
            | Some e => (Returned (false, DatabaseError e), later 2 (db w) w)
            | None =>
                let new_id := users_seq (db w) + 1 in
                (Returned (true, Registered new_id),
                 later 2 (with_new_user (user_row sha user_data new_id) (db w)) w)
            end
        end
    end.
Proof.
  unfold register_user, try_except, bind, execute_query, select_id_by_username,
    hash_password, ret.
  destruct (sqlite_fault (env w) (tick w)); [done|]. simpl.
  destruct (List.find _ _) eqn:Hfind; [done|]. simpl.
  destruct (sqlite_fault (env w) (S (tick w))); [done|].
  unfold insert_user. simpl.
  by rewrite (find_None_existsb _ _ Hfind).
Qed.

(** C7.  When the lookup does not raise, [authenticate] returns the summary
    (id, first name, last name, username) of a user exactly when that user is
    in [users] under the given username and the hash of the given password is
    the stored hash.  In every other case it returns [None]; an unknown
    username and a wrong password for a known one give the same result and
    leave the same world behind. *)
Theorem authenticate_outcomes (sha : string -> string) (name password : string)
    (w : World) :
  usernames_unique (db w) ->
  sqlite_fault (env w) (tick w) = None ->
  exists r,
    authenticate sha name password w = (Returned r, later 1 (db w) w)
    /\ (forall s, r = Some s <->
          exists u, u ∈ users (db w) /\ username u = name
                    /\ sha password = password_hash u
                    /\ s = summary_of u)
    /\ ((forall u, u ∈ users (db w) -> username u ≠ name) -> r = None)
    /\ (forall u, u ∈ users (db w) -> username u = name ->
          sha password ≠ password_hash u -> r = None).
Proof.
  intros Huniq Hf. rewrite authenticate_run, Hf.
  destruct (List.find _ _) as [u|] eqn:Hfind.
  - apply find_username_Some in Hfind as [Hu Hname]; [|done].
    assert (forall v, v ∈ users (db w) -> username v = name -> v = u) as Hsame.
    { intros v Hv Hvn.
      assert (List.find (has_username name) (users (db w)) = Some v) as Hv'
        by (by apply find_username_Some).
      assert (List.find (has_username name) (users (db w)) = Some u) as Hu'
        by (by apply find_username_Some).
      congruence. }
    case_bool_decide as Hhash.
    + eexists. split; [done|]. split_and!.
      * intros s. split.
        -- intros [= <-]. by exists u.
        -- intros (v & Hv & Hvn & _ & ->). by rewrite (Hsame v Hv Hvn).
      * intros Hnone. by destruct (Hnone u Hu).
      * intros v Hv Hvn Hvh. by rewrite (Hsame v Hv Hvn) in Hvh.
    + eexists. split; [done|]. split_and!; [|done..].
      intros s. split; [done|].
      intros (v & Hv & Hvn & Hvh & _). by rewrite (Hsame v Hv Hvn) in Hvh.
  - eexists. split; [done|]. split_and!; [|done..].
    intros s. split; [done|].
    intros (v & Hv & Hvn & _).
    by destruct (proj1 (find_username_None _ _) Hfind v Hv).
Qed.

Lemma authenticate_outcomes_witness :
  let w := snd (register_user toy_digest alice fresh_world) in
  exists r,
    authenticate toy_digest "alice" "correct horse" w = (Returned r, later 1 (db w) w)
    /\ r = Some (mkUserSummary 1 "Alice" "Ivanova" "alice").
Proof.
  intros w.
  destruct (authenticate_outcomes toy_digest "alice" "correct horse" w)
    as (r & Hrun & Hsome & _).
  - unfold usernames_unique. simpl. apply NoDup_singleton.
  - reflexivity.
  - exists r. split; [exact Hrun|]. apply Hsome.
    eexists. split; [|split; [|split]]; [left|reflexivity..].
Defined.

Lemma rows_named_none name (l : list User) :
  (forall u, u ∈ l -> username u ≠ name) ->
  filter (fun u => username u = name) l = [].
Proof.
  induction l as [|x l IH]; intros H; [done|].
  rewrite filter_cons_False by (apply H; left).
  apply IH. intros u Hu. apply H. by right.
Qed.

(** C8.  Registration under a username that a row of [users] already
    carries changes nothing in the database and, when the lookup does not
    raise, returns the message that the username is taken.  A successful
    registration appends one row whose [password_hash] column is the hash of
    the password, the other columns being those of the profile, so that the
    row is then the only one with its username; a second registration under
    that username fails as taken and leaves exactly one such row. *)
Theorem register_user_unique_username (sha : string -> string) (user_data : UserData)
    (w : World) :
  (forall u, u ∈ users (db w) -> username u = ud_username user_data ->
     db (snd (register_user sha user_data w)) = db w
     /\ (sqlite_fault (env w) (tick w) = None ->
         fst (register_user sha user_data w) = Returned (false, UsernameTaken)))
  /\ (forall m w1, register_user sha user_data w = (Returned (true, m), w1) ->
        users (db w1) =
          (users (db w) ++
             [mkUser (users_seq (db w) + 1)
                     (ud_first_name user_data) (ud_last_name user_data)
                     (ud_date_of_birth user_data)
                     (ud_street user_data) (ud_city user_data)
                     (ud_zip_code user_data) (ud_country user_data)
                     (ud_phone_number user_data) (ud_email user_data)
                     (ud_username user_data) (sha (ud_password user_data))])%list
        /\ rows_named (ud_username user_data) (db w1) = 1%nat
        /\ forall other,
             ud_username other = ud_username user_data ->
             sqlite_fault (env w1) (tick w1) = None ->
             exists w2,
               register_user sha other w1 = (Returned (false, UsernameTaken), w2)
               /\ db w2 = db w1
               /\ rows_named (ud_username user_data) (db w2) = 1%nat).
Proof.
  split.
  - intros u Hu Hname. rewrite register_user_run.
    destruct (sqlite_fault (env w) (tick w)); [done|].
    destruct (List.find _ _) eqn:Hfind; [done|].
    by destruct (proj1 (find_username_None _ _) Hfind u Hu).
  - intros m w1. rewrite register_user_run. intros Hrun.
    destruct (sqlite_fault (env w) (tick w)); [done|].
    destruct (List.find _ _) eqn:Hfind; [done|].
    destruct (sqlite_fault (env w) (1 + tick w)); [done|].
    cbv zeta in Hrun. simplify_eq.
    assert (rows_named (ud_username user_data)
              (with_new_user (user_row sha user_data (users_seq (db w) + 1)) (db w))
            = 1%nat) as Hone.
    { unfold rows_named. simpl. rewrite filter_app, length_app.
      rewrite rows_named_none by (by apply find_username_None).
      by rewrite filter_cons_True. }
    split_and!; [done|exact Hone|].
    intros other Hother Hf. rewrite register_user_run. simpl in Hf. simpl.
    rewrite Hf, Hother.
    destruct (List.find _ (_ ++ _)%list) eqn:Hfind2.
    + by eexists.
    + exfalso.
      apply (proj1 (find_username_None _ _) Hfind2
               (user_row sha user_data (users_seq (db w) + 1))); [|done].
      apply elem_of_app. right. left.
Qed.

Lemma register_user_unique_username_witness :
  let w1 := snd (register_user toy_digest alice fresh_world) in
  exists w2,
    register_user toy_digest mallory w1 = (Returned (false, UsernameTaken), w2)
    /\ db w2 = db w1
    /\ rows_named "alice" (db w2) = 1%nat.
Proof.
  intros w1.
  destruct (register_user_unique_username toy_digest alice fresh_world) as [_ Hreg].
  destruct (Hreg (Registered 1) w1) as (_ & _ & Hsecond).
  - vm_compute. reflexivity.
  - apply (Hsecond mallory); reflexivity.
Defined.

Lemma register_user_keeps_unique sha user_data w :
  usernames_unique (db w) -> usernames_unique (db (snd (register_user sha user_data w))).
Proof.
  intros Hu. rewrite register_user_run.
  destruct (sqlite_fault (env w) (tick w)); [done|].
  destruct (List.find _ _) eqn:Hfind; [done|].
  destruct (sqlite_fault (env w) (1 + tick w)); [done|].
  unfold usernames_unique in *. simpl. rewrite fmap_app. simpl.
  apply NoDup_app. split_and!; [done| |apply NoDup_singleton].
  intros name Hin Hname. apply list_elem_of_singleton in Hname as ->.
  apply list_elem_of_fmap in Hin as (u & Hn & Hu').
  by destruct (proj1 (find_username_None _ _) Hfind u Hu').
Qed.

(** * Further properties of the services *)

(** ** Deposit *)

(** X3.  The balance update and the log entry of [deposit] are two separate
    commits.  When the store fails at the INSERT of the transaction row and
    not before, [deposit] reports failure, yet the balance has already been
    raised by the amount and stays raised, and no row is logged. *)
Theorem deposit_log_failure (number : string) (X : Z) (descr : string) (w : World)
    (a : Account) (e : sqlite3_Error) :
  sqlite_fault (env w) (tick w) = None ->
  sqlite_fault (env w) (1 + tick w) = None ->
  sqlite_fault (env w) (3 + tick w) = Some e ->
  accounts (db w) !! number = Some a ->
  0 < X ->
  exists w',
    deposit number X descr w = (Returned (false, DepositError e), w')
    /\ accounts (db w') = <[number := add_balance X a]> (accounts (db w))
    /\ transactions (db w') = transactions (db w).
Proof.
  intros Hf0 Hf1 Hf3 Ha Hx. rewrite deposit_run, Hf0, Ha, Hf1. cbv zeta. rewrite Hf3.
  destruct (Z.leb_spec X 0); [lia|].
  eexists. split; [reflexivity|]. simpl. split; [|done]. by apply alter_to_insert.
Qed.

Lemma deposit_log_failure_witness :
  exists w',
    deposit "4081781022222222" 250 "gift" (mkWorld log_outage_env 0 (db sample_world))
      = (Returned (false, DepositError "disk I/O error"), w')
    /\ balance <$> accounts (db w') !! "4081781022222222" = Some 250
    /\ transactions (db w') = [].
Proof.
  destruct (deposit_log_failure "4081781022222222" 250 "gift"
              (mkWorld log_outage_env 0 (db sample_world))
              (mkAccount 2 "Savings" "RUB" 0 0 "2024-01-11 09:00:00") "disk I/O error")
    as (w' & Hrun & Hacc & Htx).
  - reflexivity.
  - reflexivity.
  - reflexivity.
  - reflexivity.
  - lia.
  - exists w'. split; [exact Hrun|]. rewrite Hacc, Htx. split; reflexivity.
Defined.

(** X4.  Likewise for [withdraw]: when the store fails at the INSERT of the
    transaction row and not before, a withdrawal within the available funds
    reports failure, yet the balance has been lowered by the amount, and no
    row is logged. *)
Theorem withdraw_log_failure (number : string) (X : Z) (descr : string) (w : World)
    (a : Account) (e : sqlite3_Error) :
  sqlite_fault (env w) (tick w) = None ->
  sqlite_fault (env w) (1 + tick w) = None ->
  sqlite_fault (env w) (3 + tick w) = Some e ->
  accounts (db w) !! number = Some a ->
  0 < X <= balance a + overdraft_limit a ->
  exists w',
    withdraw number X descr w = (Returned (false, WithdrawError e), w')
    /\ accounts (db w') = <[number := sub_balance X a]> (accounts (db w))
    /\ transactions (db w') = transactions (db w).
Proof.
  intros Hf0 Hf1 Hf3 Ha [Hx Hav].
  rewrite withdraw_run, Hf0, Ha. cbv zeta. rewrite Hf1, Hf3.
  destruct (Z.leb_spec X 0); [lia|].
  destruct (Z.gtb_spec X (balance a + overdraft_limit a)); [lia|].
  eexists. split; [reflexivity|]. simpl. split; [|done]. by apply alter_to_insert.
Qed.

Lemma withdraw_log_failure_witness :
  exists w',
    withdraw "4081781011111111" 1500 "cash"
        (mkWorld log_outage_env 0 (db sample_world))
      = (Returned (false, WithdrawError "disk I/O error"), w')
    /\ balance <$> accounts (db w') !! "4081781011111111" = Some (-500)
    /\ transactions (db w') = [].
Proof.
  destruct (withdraw_log_failure "4081781011111111" 1500 "cash"
              (mkWorld log_outage_env 0 (db sample_world))
              (mkAccount 1 "Checking" "RUB" 1000 500 "2024-01-10 09:00:00")
              "disk I/O error")
    as (w' & Hrun & Hacc & Htx).
  - reflexivity.
  - reflexivity.
  - reflexivity.
  - reflexivity.
  - simpl. lia.
  - exists w'. split; [exact Hrun|]. rewrite Hacc, Htx. split; reflexivity.
Defined.

(** ** Exceptions *)

Lemma withdraw_returns number amt descr w :
  exists r w', withdraw number amt descr w = (Returned r, w').
Proof.
  rewrite withdraw_run.
  destruct (amt <=? 0); [by eauto|].
  destruct (sqlite_fault (env w) (tick w)); [by eauto|].
  destruct (accounts (db w) !! number); [|by eauto]. cbv zeta.
  destruct (amt >? _); [by eauto|].
  destruct (sqlite_fault (env w) (1 + tick w)); [by eauto|].
  destruct (sqlite_fault (env w) (3 + tick w)); by eauto.
Qed.

Lemma transfer_legs_returns from_account to_account amt descr a w :
  exists r w', transfer_legs from_account to_account amt descr a w = (Returned r, w').
Proof.
  unfold transfer_legs.
  destruct (withdraw_returns from_account amt
              (transfer_out_description to_account descr) w) as ([[|] mw] & w3 & ->);
    [|by eauto].
  destruct (deposit_returns to_account amt
              (transfer_in_description from_account descr) w3) as ([[|] md] & w4 & ->);
    [by eauto|].
  destruct (deposit_returns from_account amt "Откат перевода" w4) as (r & w5 & ->).
  by eauto.
Qed.

(** X5.  The methods that write to the store never let a [sqlite3.Error]
    escape: whatever the database and wherever the store fails,
    [register_user], [create_account], [deposit], [withdraw] and [transfer]
    return a (success, message) pair. *)
Theorem writers_never_raise (sha : string -> string) (w : World) :
  (forall user_data, exists r w', register_user sha user_data w = (Returned r, w'))
  /\ (forall uid kind cur limit,
        exists r w', create_account uid kind cur limit w = (Returned r, w'))
  /\ (forall number amt descr, exists r w', deposit number amt descr w = (Returned r, w'))
  /\ (forall number amt descr, exists r w', withdraw number amt descr w = (Returned r, w'))
  /\ (forall from_account to_account amt descr,
        exists r w', transfer from_account to_account amt descr w = (Returned r, w')).
Proof.
  split_and!.
  - intros user_data. rewrite register_user_run.
    destruct (sqlite_fault (env w) (tick w)); [by eauto|].
    destruct (List.find _ _); [by eauto|].
    destruct (sqlite_fault (env w) (1 + tick w)); by eauto.
  - intros uid kind cur limit. rewrite create_account_run. cbv zeta.
    destruct (sqlite_fault (env w) (2 + tick w)); [by eauto|].
    destruct (accounts (db w) !! generated_number w); by eauto.
  - intros. apply deposit_returns.
  - intros. apply withdraw_returns.
  - intros from_account to_account amt descr. rewrite transfer_run.
    destruct (amt <=? 0); [by eauto|].
    destruct (sqlite_fault (env w) (tick w)); [by eauto|].
    destruct (sqlite_fault (env w) (1 + tick w)); [by eauto|].
    destruct (accounts (db w) !! from_account) as [a|]; [|by eauto].
    destruct (accounts (db w) !! to_account) as [b|]; [|by eauto].
    destruct (negb _); [by eauto|].
    destruct (amt >? available a); [by eauto|].
    apply transfer_legs_returns.
Qed.

(** X6.  The methods that only read have no [try]: when the store fails at
    their query, [authenticate], [get_user_info], [get_account],
    [get_accounts], [get_transactions] and [get_account_owner] raise that
    error to the caller, and the database is as before. *)
Theorem readers_raise (sha : string -> string) (w : World) (e : sqlite3_Error) :
  sqlite_fault (env w) (tick w) = Some e ->
  (forall name password,
     authenticate sha name password w = (Raised e, later 1 (db w) w))
  /\ (forall uid, get_user_info uid w = (Raised e, later 1 (db w) w))
  /\ (forall number, get_account number w = (Raised e, later 1 (db w) w))
  /\ (forall uid, get_accounts uid w = (Raised e, later 1 (db w) w))
  /\ (forall number limit,
        get_transactions number limit w = (Raised e, later 1 (db w) w))
  /\ (forall number, get_account_owner number w = (Raised e, later 1 (db w) w)).
Proof.
  intros Hf. split_and!; intros.
  - by rewrite authenticate_run, Hf.
  - unfold get_user_info, bind, fetch_all_dict, execute_query. by rewrite Hf.
  - by rewrite get_account_run, Hf.
  - unfold get_accounts, fetch_all_dict, execute_query. by rewrite Hf.
  - unfold get_transactions, fetch_all_dict, execute_query. by rewrite Hf.
  - unfold get_account_owner, execute_query. by rewrite Hf.
Qed.

Lemma readers_raise_witness :
  authenticate toy_digest "alice" "correct horse" (mkWorld down_env 0 init_database)
  = (Raised "unable to open database file", mkWorld down_env 1 init_database).
Proof.
  destruct (readers_raise toy_digest (mkWorld down_env 0 init_database)
              "unable to open database file") as (Hauth & _).
  - reflexivity.
  - apply Hauth.
Defined.

(** ** More on transfer *)

Lemma deposit_frame number amt descr w k :
  k ≠ number ->
  accounts (db (snd (deposit number amt descr w))) !! k = accounts (db w) !! k.
Proof.
  intros Hne. rewrite deposit_run.
  destruct (amt <=? 0); [done|].
  destruct (sqlite_fault (env w) (tick w)); [done|].
  destruct (accounts (db w) !! number); [|done].
  destruct (sqlite_fault (env w) (1 + tick w)); [done|]. cbv zeta.
  destruct (sqlite_fault (env w) (3 + tick w)); simpl; by rewrite lookup_alter_ne.
Qed.

Lemma withdraw_frame number amt descr w k :
  k ≠ number ->
  accounts (db (snd (withdraw number amt descr w))) !! k = accounts (db w) !! k.
Proof.
  intros Hne. rewrite withdraw_run.
  destruct (amt <=? 0); [done|].
  destruct (sqlite_fault (env w) (tick w)); [done|].
  destruct (accounts (db w) !! number); [|done]. cbv zeta.
  destruct (amt >? _); [done|].
  destruct (sqlite_fault (env w) (1 + tick w)); [done|].
  destruct (sqlite_fault (env w) (3 + tick w)); simpl; by rewrite lookup_alter_ne.
Qed.

Lemma deposit_users number amt descr w :
  users (db (snd (deposit number amt descr w))) = users (db w).
Proof.
  rewrite deposit_run.
  destruct (amt <=? 0); [done|].
  destruct (sqlite_fault (env w) (tick w)); [done|].
  destruct (accounts (db w) !! number); [|done].
  destruct (sqlite_fault (env w) (1 + tick w)); [done|]. cbv zeta.
  by destruct (sqlite_fault (env w) (3 + tick w)).
Qed.

Lemma withdraw_users number amt descr w :
  users (db (snd (withdraw number amt descr w))) = users (db w).
Proof.
  rewrite withdraw_run.
  destruct (amt <=? 0); [done|].
  destruct (sqlite_fault (env w) (tick w)); [done|].
  destruct (accounts (db w) !! number); [|done]. cbv zeta.
  destruct (amt >? _); [done|].
  destruct (sqlite_fault (env w) (1 + tick w)); [done|].
  by destruct (sqlite_fault (env w) (3 + tick w)).
Qed.

(** X7.  Whatever [transfer] returns and wherever the store fails in it, it
    touches no account other than the source and the destination, and no row
    of [users]. *)
Theorem transfer_frame (from_account to_account : string) (amt : Z) (descr : string)
    (w : World) (k : string) :
  k ≠ from_account -> k ≠ to_account ->
  accounts (db (snd (transfer from_account to_account amt descr w))) !! k
    = accounts (db w) !! k
  /\ users (db (snd (transfer from_account to_account amt descr w))) = users (db w).
Proof.
  intros Hfrom Hto. rewrite transfer_run.
  destruct (amt <=? 0); [done|].
  destruct (sqlite_fault (env w) (tick w)); [done|].
  destruct (sqlite_fault (env w) (1 + tick w)); [done|].
  destruct (accounts (db w) !! from_account) as [a|]; [|done].
  destruct (accounts (db w) !! to_account) as [b|]; [|done].
  destruct (negb _); [done|].
  destruct (amt >? available a); [done|].
  unfold transfer_legs.
  pose proof (withdraw_frame from_account amt
                (transfer_out_description to_account descr)
                (later 2 (db w) w) k Hfrom) as H3.
  pose proof (withdraw_users from_account amt
                (transfer_out_description to_account descr) (later 2 (db w) w)) as U3.
  destruct (withdraw _ _ _ _) as [[[[|] mw]|e] w3]; simpl in *; [|done..].
  pose proof (deposit_frame to_account amt
                (transfer_in_description from_account descr) w3 k Hto) as H4.
  pose proof (deposit_users to_account amt
                (transfer_in_description from_account descr) w3) as U4.
  destruct (deposit _ _ _ w3) as [[[[|] md]|e] w4]; simpl in *;
    [by rewrite H4, U4|  |by rewrite H4, U4].
  pose proof (deposit_frame from_account amt "Откат перевода" w4 k Hfrom) as H5.
  pose proof (deposit_users from_account amt "Откат перевода" w4) as U5.
  destruct (deposit _ _ _ w4) as [[r|e] w5]; simpl in *;
    by rewrite H5, U5, H4, U4.
Qed.

Lemma transfer_frame_witness :
  accounts (db (snd (transfer "4081781011111111" "4081781022222222" 300 ""
                       (mkWorld outage_env 0 (db sample_world)))))
    !! "4081781033333333"
  = Some (mkAccount 2 "Deposit" "USD" 70 0 "2024-01-12 09:00:00").
Proof.
  destruct (transfer_frame "4081781011111111" "4081781022222222" 300 ""
              (mkWorld outage_env 0 (db sample_world)) "4081781033333333")
    as [Hacc _].
  - done.
  - done.
  - rewrite Hacc. reflexivity.
Defined.

(** ** What every sequence of calls keeps *)

Section Invariants.

Variable P : Database -> Prop.

Hypothesis P_credit : forall number amt d a,
  accounts d !! number = Some a -> 0 < amt -> P d -> P (credit number amt d).
Hypothesis P_debit : forall number amt d a,
  accounts d !! number = Some a -> 0 < amt <= available a ->
  P d -> P (debit number amt d).
Hypothesis P_log : forall number kind amt descr stamp d,
  is_Some (accounts d !! number) -> 0 < amt ->
  kind = "DEPOSIT" \/ kind = "WITHDRAWAL" ->
  P d -> P (append_transaction number kind amt descr stamp d).
Hypothesis P_open : forall number uid kind cur limit created d,
  well_formed_number number -> accounts d !! number = None ->
  P d ->
  P (with_accounts (<[number := mkAccount uid kind cur 0 limit created]> (accounts d)) d).

Lemma deposit_invariant number amt descr w :
  P (db w) -> P (db (snd (deposit number amt descr w))).
Proof using P_credit P_log.
  intros HP. rewrite deposit_run.
  destruct (Z.leb_spec amt 0); [done|].
  destruct (sqlite_fault (env w) (tick w)); [done|].
  destruct (accounts (db w) !! number) as [a|] eqn:Ha; [|done].
  destruct (sqlite_fault (env w) (1 + tick w)); [done|]. cbv zeta.
  assert (P (credit number amt (db w))) by eauto.
  destruct (sqlite_fault (env w) (3 + tick w)); simpl; [done|].
  apply P_log; [|done|by left|done]. simpl. by rewrite lookup_alter_eq, Ha.
Qed.

Lemma withdraw_invariant number amt descr w :
  P (db w) -> P (db (snd (withdraw number amt descr w))).
Proof using P_debit P_log.
  intros HP. rewrite withdraw_run.
  destruct (Z.leb_spec amt 0); [done|].
  destruct (sqlite_fault (env w) (tick w)); [done|].
  destruct (accounts (db w) !! number) as [a|] eqn:Ha; [|done]. cbv zeta.
  destruct (Z.gtb_spec amt (balance a + overdraft_limit a)); [done|].
  destruct (sqlite_fault (env w) (1 + tick w)); [done|].
  assert (P (debit number amt (db w))) by (apply (P_debit _ _ _ a); done).
  destruct (sqlite_fault (env w) (3 + tick w)); simpl; [done|].
  apply P_log; [|done|by right|done]. simpl. by rewrite lookup_alter_eq, Ha.
Qed.

Lemma transfer_invariant from_account to_account amt descr w :
  P (db w) -> P (db (snd (transfer from_account to_account amt descr w))).
Proof using P_credit P_debit P_log.
  intros HP. rewrite transfer_run.
  destruct (amt <=? 0); [done|].
  destruct (sqlite_fault (env w) (tick w)); [done|].
  destruct (sqlite_fault (env w) (1 + tick w)); [done|].
  destruct (accounts (db w) !! from_account) as [a|]; [|done].
  destruct (accounts (db w) !! to_account) as [b|]; [|done].
  destruct (negb _); [done|].
  destruct (amt >? available a); [done|].
  unfold transfer_legs.
  pose proof (withdraw_invariant from_account amt
                (transfer_out_description to_account descr)
                (later 2 (db w) w) HP) as H3.
  destruct (withdraw _ _ _ _) as [[[[|] mw]|e] w3]; simpl in *; [|done..].
  pose proof (deposit_invariant to_account amt
                (transfer_in_description from_account descr) w3 H3) as H4.
  destruct (deposit _ _ _ w3) as [[[[|] md]|e] w4]; simpl in *; [done| |done].
  pose proof (deposit_invariant from_account amt "Откат перевода" w4 H4) as H5.
  by destruct (deposit _ _ _ w4) as [[r|e] w5].
Qed.

Lemma generated_number_well_formed w : well_formed_number (generated_number w).
Proof using Type.
  unfold well_formed_number, generated_number. eexists. split; [|reflexivity].
  pose proof (Z.mod_pos_bound (random_draw (env w) (tick w))
                (99999999 - 10000000 + 1)).
  lia.
Qed.

Lemma create_account_invariant uid kind cur limit w :
  P (db w) -> P (db (snd (create_account uid kind cur limit w))).
Proof using P_open.
  intros HP. rewrite create_account_run. cbv zeta.
  destruct (sqlite_fault (env w) (2 + tick w)); [done|].
  destruct (accounts (db w) !! generated_number w) eqn:Hfresh; [done|].
  simpl. apply P_open; [apply generated_number_well_formed|done..].
Qed.

Lemma perform_all_invariant cs w : P (db w) -> P (db (perform_all cs w)).
Proof using All.
  revert w. induction cs as [|c cs IH]; intros w HP; [done|].
  simpl. apply IH.
  destruct c; simpl;
    auto using create_account_invariant, deposit_invariant, withdraw_invariant,
               transfer_invariant.
Qed.

End Invariants.

(** X10.  No call of [create_account], [deposit], [withdraw] or [transfer],
    successful or not and wherever the store fails, deletes an account or
    changes its owner, type, currency, overdraft limit or creation date: after
    any sequence of calls an account that existed still exists with these
    columns as they were. *)
Theorem accounts_keep_identity (number : string) (a : Account) (w : World)
    (calls : list ledger_call) :
  accounts (db w) !! number = Some a ->
  exists a',
    accounts (db (perform_all calls w)) !! number = Some a'
    /\ user_id a' = user_id a /\ account_type a' = account_type a
    /\ currency a' = currency a /\ overdraft_limit a' = overdraft_limit a
    /\ created_date a' = created_date a.
Proof.
  intros Ha.
  apply (perform_all_invariant
           (fun d => exists a', accounts d !! number = Some a' /\ same_identity a a')).
  - intros j amt d b _ _ (a' & Ha' & Hid). simpl.
    destruct (decide (j = number)) as [->|Hne].
    + exists (add_balance amt a'). by rewrite lookup_alter_eq, Ha'.
    + exists a'. by rewrite lookup_alter_ne.
  - intros j amt d b _ _ (a' & Ha' & Hid). simpl.
    destruct (decide (j = number)) as [->|Hne].
    + exists (sub_balance amt a'). by rewrite lookup_alter_eq, Ha'.
    + exists a'. by rewrite lookup_alter_ne.
  - done.
  - intros j uid kind cur limit created d _ Hfresh (a' & Ha' & Hid). simpl.
    exists a'. rewrite lookup_insert_ne; [done|]. congruence.
  - exists a. by repeat split.
Qed.

Lemma accounts_keep_identity_witness :
  exists a',
    accounts (db (perform_all
                    [CallWithdraw "4081781011111111" 1500 "cash";
                     CallTransfer "4081781033333333" "4081781011111111" 5 "";
                     CallCreateAccount 9 "Savings" "EUR" 0]
                    sample_world)) !! "4081781011111111" = Some a'
    /\ currency a' = "RUB" /\ overdraft_limit a' = 500.
Proof.
  destruct (accounts_keep_identity "4081781011111111"
              (mkAccount 1 "Checking" "RUB" 1000 500 "2024-01-10 09:00:00")
              sample_world
              [CallWithdraw "4081781011111111" 1500 "cash";
               CallTransfer "4081781033333333" "4081781011111111" 5 "";
               CallCreateAccount 9 "Savings" "EUR" 0])
    as (a' & Ha' & _ & _ & Hcur & Hlim & _).
  - reflexivity.
  - exists a'. split; [exact Ha'|]. split; [exact Hcur|exact Hlim].
Defined.

(** X11.  The transaction log is append-only and the ledger methods never
    write to [users]: after any sequence of calls of [create_account],
    [deposit], [withdraw] and [transfer], wherever the store fails, the log
    before is a prefix of the log after and [users] is unchanged. *)
Theorem log_is_append_only (w : World) (calls : list ledger_call) :
  transactions (db w) `prefix_of` transactions (db (perform_all calls w))
  /\ users (db (perform_all calls w)) = users (db w).
Proof.
  apply (perform_all_invariant
           (fun d => transactions (db w) `prefix_of` transactions d
                     /\ users d = users (db w))).
  - done.
  - done.
  - intros j kind amt descr stamp d _ _ _ [Hpre Hu]. simpl. split; [|done].
    by apply prefix_app_r.
  - done.
  - done.
Qed.

(** X12.  Starting from the empty database, after any sequence of calls of
    [create_account], [deposit], [withdraw] and [transfer], in any
    environment: every row of the log is on an existing account, has a
    positive amount and is a DEPOSIT or a WITHDRAWAL (never another kind), and
    every account number is the prefix 40817810 followed by a number between
    10000000 and 99999999. *)
Theorem ledger_rows_well_formed (e : Env) (calls : list ledger_call) :
  let d := db (perform_all calls (mkWorld e 0 init_database)) in
  (forall t, t ∈ transactions d ->
     is_Some (accounts d !! account_number t) /\ well_formed_row t)
  /\ (forall number, is_Some (accounts d !! number) -> well_formed_number number).
Proof.
  apply (perform_all_invariant
           (fun d => (forall t, t ∈ transactions d ->
                        is_Some (accounts d !! account_number t) /\ well_formed_row t)
                     /\ (forall number, is_Some (accounts d !! number) ->
                           well_formed_number number))).
  - intros j amt d a _ _ [Hrows Hnum]. simpl. split.
    + intros t Ht. destruct (Hrows t Ht) as [Hacc Hwf]. split; [|done].
      by apply lookup_alter_is_Some.
    + intros number Hn. apply Hnum. by apply lookup_alter_is_Some in Hn.
  - intros j amt d a _ _ [Hrows Hnum]. simpl. split.
    + intros t Ht. destruct (Hrows t Ht) as [Hacc Hwf]. split; [|done].
      by apply lookup_alter_is_Some.
    + intros number Hn. apply Hnum. by apply lookup_alter_is_Some in Hn.
  - intros j kind amt descr stamp d Hj Hamt Hkind [Hrows Hnum]. simpl.
    split; [|done]. intros t Ht.
    apply elem_of_app in Ht as [Ht|Ht]; [by apply Hrows|].
    apply list_elem_of_singleton in Ht as ->. by split.
  - intros j uid kind cur limit created d Hwf Hfresh [Hrows Hnum]. simpl. split.
    + intros t Ht. destruct (Hrows t Ht) as [Hacc Hrow]. split; [|done].
      apply lookup_insert_is_Some'. by right.
    + intros number Hn. apply lookup_insert_is_Some' in Hn as [<-|Hn]; [done|].
      by apply Hnum.
  - simpl. split.
    + intros t Ht. by apply elem_of_nil in Ht.
    + intros number Hn. rewrite lookup_empty in Hn. by destruct Hn.
Qed.

(** ** Account numbers *)

Lemma pretty_N_go_length (k : nat) : forall (x : N) (s : string),
  (10 ^ N.of_nat k <= x < 10 ^ N.of_nat (S k))%N ->
  String.length (pretty_N_go x s) = (S k + String.length s)%nat.
Proof.
  induction k as [|k IH]; intros x s [Hlo Hhi].
  - change (10 ^ N.of_nat 0)%N with 1%N in Hlo.
    change (10 ^ N.of_nat 1)%N with 10%N in Hhi.
    rewrite pretty_N_go_step by lia.
    rewrite N.div_small by lia. by rewrite pretty_N_go_0.
  - rewrite Nat2N.inj_succ, N.pow_succ_r' in Hlo.
    rewrite (Nat2N.inj_succ (S k)), N.pow_succ_r' in Hhi.
    assert (0 < 10 ^ N.of_nat k)%N by (apply N.neq_0_lt_0, N.pow_nonzero; lia).
    rewrite pretty_N_go_step by lia.
    rewrite IH; [simpl; lia|]. split.
    + apply N.div_le_lower_bound; lia.
    + apply N.Div0.div_lt_upper_bound; lia.
Qed.

Lemma well_formed_number_length number :
  well_formed_number number -> String.length number = 16%nat.
Proof.
  intros (n & [Hlo Hhi] & ->).
  destruct n as [|p|p]; [lia| |lia].
  unfold pretty, pretty_Z, pretty, pretty_positive, pretty, pretty_N.
  rewrite decide_False by done.
  change (String.length ("40817810" +:+ pretty_N_go (N.pos p) ""))
    with (8 + String.length (pretty_N_go (N.pos p) ""))%nat.
  rewrite (pretty_N_go_length 7); [done|].
  change (10 ^ N.of_nat 7)%N with 10000000%N.
  change (10 ^ N.of_nat 8)%N with 100000000%N. lia.
Qed.

(** X13.  Whatever [random.randint] draws, [generate_account_number] returns
    a string of 16 characters: the prefix 40817810 and the eight decimal
    digits of a number between 10000000 and 99999999. *)
Theorem generate_account_number_format (w : World) :
  exists n,
    generate_account_number w = (Returned ("40817810" +:+ pretty n), advance w)
    /\ 10000000 <= n <= 99999999
    /\ String.length (pretty n) = 8%nat
    /\ String.length ("40817810" +:+ pretty n) = 16%nat.
Proof.
  destruct (generated_number_well_formed w) as (n & Hn & Heq).
  assert (String.length ("40817810" +:+ pretty n) = 16%nat) as Hlen
    by (apply well_formed_number_length; by exists n).
  exists n. split; [|split; [done|split; [|done]]].
  - unfold generate_account_number, bind, random_randint, ret.
    unfold generated_number in Heq. by rewrite Heq.
  - change (String.length ("40817810" +:+ pretty n))
      with (8 + String.length (pretty n))%nat in Hlen. lia.
Qed.

(** X14.  [create_account] does not retry: when the generated number is
    already the number of an account and the store does not fail, the call
    fails with the store's UNIQUE error, the database is exactly as before and
    the existing account is not overwritten. *)
Theorem create_account_collision (uid : Z) (kind cur : string) (limit : Z) (w : World)
    (a : Account) :
  sqlite_fault (env w) (2 + tick w) = None ->
  accounts (db w) !! generated_number w = Some a ->
  exists w',
    create_account uid kind cur limit w
      = (Returned (false, CreateAccountError
                            "UNIQUE constraint failed: accounts.account_number"), w')
    /\ db w' = db w.
Proof.
  intros Hf Ha. rewrite create_account_run. cbv zeta. rewrite Hf, Ha. by eexists.
Qed.

Lemma create_account_collision_witness :
  let w1 := snd (create_account 1 "Checking" "RUB" 5000 fresh_world) in
  let w2 := mkWorld calm_env 0 (db w1) in
  exists w',
    create_account 2 "Savings" "USD" 0 w2
      = (Returned (false, CreateAccountError
                            "UNIQUE constraint failed: accounts.account_number"), w')
    /\ db w' = db w1.
Proof.
  intros w1 w2.
  apply (create_account_collision 2 "Savings" "USD" 0 w2
           (mkAccount 1 "Checking" "RUB" 0 5000 "2024-03-01 12:00:00")).
  - reflexivity.
  - vm_compute. reflexivity.
Defined.

(** ** More on users *)

Lemma get_user_info_run uid w :
  get_user_info uid w =
    match sqlite_fault (env w) (tick w) with
    | Some e => (Raised e, later 1 (db w) w)
    | None =>
        (Returned (head (filter (fun u => id u = uid) (users (db w)))),
         later 1 (db w) w)
    end.
Proof.
  unfold get_user_info, bind, fetch_all_dict, execute_query, select_users_by_id, ret.
  by destruct (sqlite_fault _ _).
Qed.

Lemma get_account_owner_run number w :
  get_account_owner number w =
    match sqlite_fault (env w) (tick w) with
    | Some e => (Raised e, later 1 (db w) w)
    | None =>
        (Returned
           (a ← accounts (db w) !! number;
            (fun u => (first_name u, last_name u, username u)) <$>
              head (filter (fun u => id u = user_id a) (users (db w)))),
         later 1 (db w) w)
    end.
Proof.
  unfold get_account_owner, execute_query, select_account_owner.
  by destruct (sqlite_fault _ _).
Qed.

Lemma register_user_keeps_ids sha user_data w :
  ids_issued (db w) /\ NoDup (id <$> users (db w)) ->
  ids_issued (db (snd (register_user sha user_data w)))
  /\ NoDup (id <$> users (db (snd (register_user sha user_data w)))).
Proof.
  intros [[Hseq Hids] Hnd]. rewrite register_user_run.
  destruct (sqlite_fault (env w) (tick w)); [done|].
  destruct (List.find _ _); [done|].
  destruct (sqlite_fault (env w) (1 + tick w)); [done|]. simpl. split; [split|].
  - simpl. lia.
  - intros u Hu. simpl in Hu. apply elem_of_app in Hu as [Hu|Hu].
    + specialize (Hids u Hu). simpl. lia.
    + apply list_elem_of_singleton in Hu as ->. simpl. lia.
  - rewrite fmap_app. apply NoDup_app. split_and!; [done| |apply NoDup_singleton].
    intros i Hi Hi'. simpl in Hi'. apply list_elem_of_singleton in Hi' as ->.
    apply list_elem_of_fmap in Hi as (u & Hid & Hu).
    specialize (Hids u Hu). lia.
Qed.

(** X15.  Starting from the empty database, after any sequence of
    registrations, successful or not, in any environment: no two rows of
    [users] share a username, no two share an id, and the ids are positive
    and at most the AUTOINCREMENT counter. *)
Theorem registrations_keep_users_distinct (sha : string -> string) (e : Env)
    (l : list UserData) :
  let d := db (register_all sha l (mkWorld e 0 init_database)) in
  usernames_unique d /\ NoDup (id <$> users d) /\ ids_issued d.
Proof.
  assert (forall w,
            usernames_unique (db w) /\ NoDup (id <$> users (db w)) /\ ids_issued (db w) ->
            let d := db (register_all sha l w) in
            usernames_unique d /\ NoDup (id <$> users d) /\ ids_issued d) as Hall.
  { induction l as [|user_data l IH]; intros w Hw; [done|].
    simpl. apply IH. destruct Hw as (Hu & Hnd & Hids).
    destruct (register_user_keeps_ids sha user_data w) as [Hids' Hnd']; [done|].
    split_and!; [|done..]. by apply register_user_keeps_unique. }
  apply Hall. simpl. split_and!.
  - apply NoDup_nil_2.
  - apply NoDup_nil_2.
  - split; [done|]. intros u Hu. by apply elem_of_nil in Hu.
Qed.

(** X16.  What [register_user] has stored, [authenticate] accepts: after a
    successful registration, logging in with the username and the password of
    the profile (the lookup not failing) returns the summary with the new id
    and the names of the profile, while a password with another hash is
    refused. *)
Theorem register_then_authenticate (sha : string -> string) (user_data : UserData)
    (w w1 : World) (new_id : Z) :
  register_user sha user_data w = (Returned (true, Registered new_id), w1) ->
  sqlite_fault (env w1) (tick w1) = None ->
  authenticate sha (ud_username user_data) (ud_password user_data) w1
    = (Returned (Some (mkUserSummary new_id (ud_first_name user_data)
                         (ud_last_name user_data) (ud_username user_data))),
       later 1 (db w1) w1)
  /\ (forall password, sha password ≠ sha (ud_password user_data) ->
        authenticate sha (ud_username user_data) password w1
          = (Returned None, later 1 (db w1) w1)).
Proof.
  rewrite register_user_run. intros Hrun Hf.
  destruct (sqlite_fault (env w) (tick w)); [done|].
  destruct (List.find _ _) eqn:Hfind; [done|].
  destruct (sqlite_fault (env w) (1 + tick w)); [done|].
  cbv zeta in Hrun. simplify_eq.
  assert (List.find (has_username (ud_username user_data))
            (users (db w) ++ [user_row sha user_data (users_seq (db w) + 1)])
          = Some (user_row sha user_data (users_seq (db w) + 1))) as Hnew.
  { clear Hf. induction (users (db w)) as [|x l IH]; simpl.
    - unfold has_username. simpl. by rewrite bool_decide_eq_true_2.
    - simpl in Hfind. destruct (has_username _ x); [done|]. by apply IH. }
  split.
  - rewrite authenticate_run, Hf. simpl. rewrite Hnew. simpl.
    by rewrite bool_decide_eq_true_2.
  - intros password Hpw. rewrite authenticate_run, Hf. simpl. rewrite Hnew. simpl.
    by rewrite bool_decide_eq_false_2.
Qed.

Lemma register_then_authenticate_witness :
  let w1 := snd (register_user toy_digest alice fresh_world) in
  authenticate toy_digest "alice" "correct horse" w1
    = (Returned (Some (mkUserSummary 1 "Alice" "Ivanova" "alice")), later 1 (db w1) w1).
Proof.
  intros w1.
  destruct (register_then_authenticate toy_digest alice fresh_world w1 1) as [Hok _].
  - vm_compute. reflexivity.
  - reflexivity.
  - exact Hok.
Defined.

(** X17.  The id that [register_user] reports finds the stored profile: in a
    database whose ids are bounded by the AUTOINCREMENT counter, after a
    successful registration [get_user_info] of the reported id (the query not
    failing) returns the row with the columns of the profile and the hash of
    the password. *)
Theorem register_then_get_user_info (sha : string -> string) (user_data : UserData)
    (w w1 : World) (new_id : Z) :
  ids_issued (db w) ->
  register_user sha user_data w = (Returned (true, Registered new_id), w1) ->
  sqlite_fault (env w1) (tick w1) = None ->
  get_user_info new_id w1
    = (Returned (Some (mkUser new_id
                         (ud_first_name user_data) (ud_last_name user_data)
                         (ud_date_of_birth user_data)
                         (ud_street user_data) (ud_city user_data)
                         (ud_zip_code user_data) (ud_country user_data)
                         (ud_phone_number user_data) (ud_email user_data)
                         (ud_username user_data) (sha (ud_password user_data)))),
       later 1 (db w1) w1).
Proof.
  intros [_ Hids]. rewrite register_user_run. intros Hrun Hf.
  destruct (sqlite_fault (env w) (tick w)); [done|].
  destruct (List.find _ _); [done|].
  destruct (sqlite_fault (env w) (1 + tick w)); [done|].
  cbv zeta in Hrun. simplify_eq.
  rewrite get_user_info_run, Hf. simpl. rewrite filter_app.
  assert (filter (fun u => id u = users_seq (db w) + 1) (users (db w)) = []) as ->.
  { induction (users (db w)) as [|x l IH]; [done|].
    rewrite filter_cons_False.
    - apply IH. intros u Hu. apply Hids. by right.
    - specialize (Hids x ltac:(left)). lia. }
  by rewrite filter_cons_True.
Qed.

Lemma register_then_get_user_info_witness :
  let w1 := snd (register_user toy_digest alice fresh_world) in
  exists row,
    get_user_info 1 w1 = (Returned (Some row), later 1 (db w1) w1)
    /\ username row = "alice" /\ password_hash row = "digest:correct horse".
Proof.
  intros w1. eexists. split.
  - apply (register_then_get_user_info toy_digest alice fresh_world w1 1).
    + split; [done|]. intros u Hu. inversion Hu.
    + vm_compute. reflexivity.
    + reflexivity.
  - split; reflexivity.
Defined.

(** ** Owners and listings *)

Lemma create_account_success uid kind cur limit w m w1 :
  create_account uid kind cur limit w = (Returned (true, m), w1) ->
  m = AccountCreated (generated_number w)
  /\ accounts (db w) !! generated_number w = None
  /\ w1 = later 3 (with_accounts
                     (<[generated_number w :=
                          mkAccount uid kind cur 0 limit (clock_now (env w) (1 + tick w))]>
                        (accounts (db w)))
                     (db w)) w.
Proof.
  rewrite create_account_run. cbv zeta. intros Hrun.
  destruct (sqlite_fault (env w) (2 + tick w)); [done|].
  destruct (accounts (db w) !! generated_number w); [done|].
  by simplify_eq.
Qed.

(** X18.  The owner of a new account is found by its number: in a database
    whose ids are bounded by the AUTOINCREMENT counter, after a successful
    registration and a successful [create_account] for the id it reported,
    [get_account_owner] of the new number (the query not failing) returns the
    first name, last name and username of the profile. *)
Theorem owner_of_new_account (sha : string -> string) (user_data : UserData)
    (w w1 w2 : World) (new_id : Z) (kind cur : string) (limit : Z) (number : string) :
  ids_issued (db w) ->
  register_user sha user_data w = (Returned (true, Registered new_id), w1) ->
  create_account new_id kind cur limit w1
    = (Returned (true, AccountCreated number), w2) ->
  sqlite_fault (env w2) (tick w2) = None ->
  get_account_owner number w2
    = (Returned (Some (ud_first_name user_data, ud_last_name user_data,
                       ud_username user_data)),
       later 1 (db w2) w2).
Proof.
  intros [_ Hids]. rewrite register_user_run. intros Hreg Hcreate Hf.
  destruct (sqlite_fault (env w) (tick w)); [done|].
  destruct (List.find _ _); [done|].
  destruct (sqlite_fault (env w) (1 + tick w)); [done|].
  cbv zeta in Hreg. simplify_eq.
  apply create_account_success in Hcreate as (Hm & _ & ->). simplify_eq.
  rewrite get_account_owner_run, Hf. simpl.
  rewrite lookup_insert_eq. simpl. rewrite filter_app.
  assert (filter (fun u => id u = users_seq (db w) + 1) (users (db w)) = []) as ->.
  { induction (users (db w)) as [|x l IH]; [done|].
    rewrite filter_cons_False.
    - apply IH. intros u Hu. apply Hids. by right.
    - specialize (Hids x ltac:(left)). lia. }
  by rewrite filter_cons_True.
Qed.

Lemma owner_of_new_account_witness :
  let w1 := snd (register_user toy_digest alice fresh_world) in
  let w2 := snd (create_account 1 "Savings" "EUR" 0 w1) in
  get_account_owner "4081781010000002" w2
    = (Returned (Some ("Alice", "Ivanova", "alice")), later 1 (db w2) w2).
Proof.
  intros w1 w2.
  apply (owner_of_new_account toy_digest alice fresh_world w1 w2 1 "Savings" "EUR" 0).
  - split; [done|]. intros u Hu. inversion Hu.
  - vm_compute. reflexivity.
  - vm_compute. reflexivity.
  - reflexivity.
Defined.

(** X19.  [create_account] accepts a user id that no user has, and the
    foreign key is not enforced: the call can succeed, [get_account] then
    finds the account with balance 0, and [get_account_owner] finds no
    owner. *)
Theorem account_without_owner (uid : Z) (kind cur : string) (limit : Z) (w w1 : World)
    (number : string) :
  (forall u, u ∈ users (db w) -> id u ≠ uid) ->
  create_account uid kind cur limit w = (Returned (true, AccountCreated number), w1) ->
  sqlite_fault (env w1) (tick w1) = None ->
  get_account number w1
    = (Returned (Some (mkAccount uid kind cur 0 limit (clock_now (env w) (1 + tick w)))),
       later 1 (db w1) w1)
  /\ get_account_owner number w1 = (Returned None, later 1 (db w1) w1).
Proof.
  intros Hnone Hcreate Hf.
  apply create_account_success in Hcreate as (Hm & _ & ->). simplify_eq.
  rewrite get_account_run, get_account_owner_run, Hf. simpl.
  rewrite lookup_insert_eq. simpl. split; [done|].
  assert (filter (fun u => id u = uid) (users (db w)) = []) as ->; [|done].
  induction (users (db w)) as [|x l IH]; [done|].
  rewrite filter_cons_False.
  - apply IH. intros u Hu. apply Hnone. by right.
  - apply Hnone. left.
Qed.

Lemma account_without_owner_witness :
  let w1 := snd (create_account 77 "Savings" "EUR" 0 fresh_world) in
  get_account_owner "4081781010000000" w1 = (Returned None, later 1 (db w1) w1).
Proof.
  intros w1.
  destruct (account_without_owner 77 "Savings" "EUR" 0 fresh_world w1
              "4081781010000000") as [_ Hown].
  - intros u Hu. inversion Hu.
  - vm_compute. reflexivity.
  - reflexivity.
  - exact Hown.
Defined.

Lemma get_accounts_run uid w :
  get_accounts uid w =
    match sqlite_fault (env w) (tick w) with
    | Some e => (Raised e, later 1 (db w) w)
    | None =>
        (Returned (account_row <$>
                     filter (fun entry => user_id (snd entry) = uid)
                            (map_to_list (accounts (db w)))),
         later 1 (db w) w)
    end.
Proof.
  unfold get_accounts, fetch_all_dict, execute_query, select_accounts_by_user.
  by destruct (sqlite_fault _ _).
Qed.

(** X20.  When the query does not fail, [get_accounts] lists exactly the
    accounts of the given user id, each once: a row is in the listing if and
    only if an account with that number and these columns exists and its
    [user_id] is the given one; no account of another user is listed. *)
Theorem get_accounts_lists_own_accounts (uid : Z) (w : World) :
  sqlite_fault (env w) (tick w) = None ->
  exists rows,
    get_accounts uid w = (Returned rows, later 1 (db w) w)
    /\ NoDup (ar_account_number <$> rows)
    /\ forall row, row ∈ rows <->
         exists a, accounts (db w) !! ar_account_number row = Some a
                   /\ user_id a = uid
                   /\ row = account_row (ar_account_number row, a).
Proof.
  intros Hf. rewrite get_accounts_run, Hf. eexists. split; [reflexivity|]. split.
  - rewrite <- list_fmap_compose.
    assert (ar_account_number ∘ account_row = fst) as -> by done.
    apply NoDup_fmap_fst.
    + intros k a1 a2 H1 H2.
      apply list_elem_of_filter in H1 as [_ H1], H2 as [_ H2].
      apply elem_of_map_to_list in H1, H2. congruence.
    + apply NoDup_filter, NoDup_map_to_list.
  - intros row. rewrite list_elem_of_fmap. split.
    + intros ([k a] & -> & Hin). apply list_elem_of_filter in Hin as [Huid Hin].
      apply elem_of_map_to_list in Hin. by exists a.
    + intros (a & Ha & Huid & Hrow). exists (ar_account_number row, a).
      split; [done|]. apply list_elem_of_filter. split; [done|].
      by apply elem_of_map_to_list.
Qed.

Lemma get_accounts_lists_own_accounts_witness :
  exists rows,
    get_accounts 2 sample_world = (Returned rows, later 1 (db sample_world) sample_world)
    /\ length rows = 2%nat.
Proof.
  destruct (get_accounts_lists_own_accounts 2 sample_world) as (rows & Hrun & _).
  - reflexivity.
  - exists rows. split; [exact Hrun|].
    vm_compute in Hrun. injection Hrun as <-. reflexivity.
Defined.

(** X21.  A new account shows up in its owner's listing and in no other:
    after a successful [create_account] for [uid], the listing of [uid] is
    the listing before together with the new row (number, type, currency,
    balance 0, limit, creation time), up to the order of the rows, and the
    listing of any other user id is the listing before, up to order. *)
Theorem create_account_then_get_accounts (uid : Z) (kind cur : string) (limit : Z)
    (w w1 : World) (number : string) :
  create_account uid kind cur limit w = (Returned (true, AccountCreated number), w1) ->
  (forall rows rows1,
     get_accounts uid w = (Returned rows, later 1 (db w) w) ->
     get_accounts uid w1 = (Returned rows1, later 1 (db w1) w1) ->
     rows1 ≡ₚ mkAccountRow number kind cur 0 limit (clock_now (env w) (1 + tick w))
              :: rows)
  /\ (forall other rows rows1,
        other ≠ uid ->
        get_accounts other w = (Returned rows, later 1 (db w) w) ->
        get_accounts other w1 = (Returned rows1, later 1 (db w1) w1) ->
        rows1 ≡ₚ rows).
Proof.
  intros Hcreate.
  apply create_account_success in Hcreate as (Hm & Hfresh & ->). simplify_eq.
  split.
  - intros rows rows1. rewrite !get_accounts_run. simpl.
    destruct (sqlite_fault (env w) (tick w)); [done|].
    destruct (sqlite_fault (env w) (S (S (S (tick w))))); [done|].
    intros [= <-] [= <-].
    rewrite map_to_list_insert by done.
    rewrite filter_cons_True by done. done.
  - intros other rows rows1 Hne. rewrite !get_accounts_run. simpl.
    destruct (sqlite_fault (env w) (tick w)); [done|].
    destruct (sqlite_fault (env w) (S (S (S (tick w))))); [done|].
    intros [= <-] [= <-].
    rewrite map_to_list_insert by done.
    rewrite filter_cons_False by (simpl; congruence). done.
Qed.

Lemma create_account_then_get_accounts_witness :
  let w1 := snd (create_account 2 "Savings" "EUR" 0 sample_world) in
  let listing := fun w => match fst (get_accounts 2 w) with
                          | Returned rows => rows
                          | Raised _ => []
                          end in
  listing w1 ≡ₚ mkAccountRow "4081781010000000" "Savings" "EUR" 0 0 "2024-03-01 12:00:00"
                :: listing sample_world.
Proof.
  intros w1 listing.
  destruct (create_account_then_get_accounts 2 "Savings" "EUR" 0 sample_world w1
              "4081781010000000") as [Hown _].
  - vm_compute. reflexivity.
  - apply Hown; vm_compute; reflexivity.
Defined.

(** ** The history of an account *)

Lemma string_leb_trans (s1 s2 s3 : string) :
  String.leb s1 s2 = true -> String.leb s2 s3 = true -> String.leb s1 s3 = true.
Proof.
  unfold String.leb. revert s2 s3.
  induction s1 as [|c1 s1 IH]; intros [|c2 s2] [|c3 s3]; simpl; try done.
  unfold Ascii.compare.
  destruct (N.compare_spec (Ascii.N_of_ascii c1) (Ascii.N_of_ascii c2)) as [H12|H12|H12];
    destruct (N.compare_spec (Ascii.N_of_ascii c2) (Ascii.N_of_ascii c3)) as [H23|H23|H23];
    try done.
  - rewrite H12, H23, N.compare_refl. apply IH.
  - rewrite H12. by rewrite (proj2 (N.compare_lt_iff _ _) H23).
  - rewrite <- H23. by rewrite (proj2 (N.compare_lt_iff _ _) H12).
  - intros _ _.
    by rewrite (proj2 (N.compare_lt_iff _ _) (N.lt_trans _ _ _ H12 H23)).
Qed.

Global Instance newer_first_total : Total newer_first.
Proof.
  intros t1 t2. unfold newer_first.
  destruct (String.leb_total (timestamp t2) (timestamp t1)); auto.
Qed.

Global Instance newer_first_trans : Transitive newer_first.
Proof. intros t1 t2 t3 H12 H23. unfold newer_first in *. by eapply string_leb_trans. Qed.

Lemma insert_newer_Permutation t rows : insert_newer t rows ≡ₚ t :: rows.
Proof.
  induction rows as [|x rest IH]; simpl; [done|].
  destruct (decide (newer_first t x)); [done|].
  rewrite IH. apply Permutation_swap.
Qed.

Lemma order_by_timestamp_desc_Permutation rows : order_by_timestamp_desc rows ≡ₚ rows.
Proof.
  induction rows as [|x rest IH]; simpl; [done|].
  by rewrite insert_newer_Permutation, IH.
Qed.

Lemma insert_newer_sorted t rows :
  StronglySorted newer_first rows -> StronglySorted newer_first (insert_newer t rows).
Proof.
  induction 1 as [|x rest Hrest IH Hx]; simpl.
  - repeat constructor.
  - destruct (decide (newer_first t x)) as [Htx|Htx].
    + constructor; [by constructor|]. constructor; [done|].
      eapply Forall_impl; [exact Hx|]. intros y Hy. by transitivity x.
    + constructor; [done|]. rewrite insert_newer_Permutation.
      constructor; [|done]. by destruct (total newer_first t x).
Qed.

Lemma order_by_timestamp_desc_sorted rows :
  StronglySorted newer_first (order_by_timestamp_desc rows).
Proof.
  induction rows as [|x rest IH]; simpl; [constructor|by apply insert_newer_sorted].
Qed.

Lemma get_transactions_run number limit w :
  get_transactions number limit w =
    match sqlite_fault (env w) (tick w) with
    | Some e => (Raised e, later 1 (db w) w)
    | None =>
        (Returned (transaction_row <$>
                     sql_limit limit
                       (order_by_timestamp_desc
                          (filter (fun t => account_number t = number)
                                  (transactions (db w))))),
         later 1 (db w) w)
    end.
Proof.
  unfold get_transactions, fetch_all_dict, execute_query, select_transactions.
  by destruct (sqlite_fault _ _).
Qed.

Lemma sql_limit_prefix {A} limit (rows : list A) : sql_limit limit rows `prefix_of` rows.
Proof.
  unfold sql_limit. destruct (limit <? 0); [done|]. apply prefix_take.
Qed.

(** X22.  When the query does not fail, [get_transactions] returns rows of
    the given account only, each the projection of a logged row, ordered so
    that no row has a timestamp (as text) greater than that of a row before
    it, and at most [limit] of them when [limit >= 0].  With a negative limit,
    or a limit that is at least the number of rows of the account, it returns
    all of them. *)
Theorem get_transactions_history (number : string) (limit : Z) (w : World) :
  sqlite_fault (env w) (tick w) = None ->
  exists rows,
    get_transactions number limit w = (Returned rows, later 1 (db w) w)
    /\ (forall row, row ∈ rows ->
          exists t, t ∈ transactions (db w) /\ account_number t = number
                    /\ row = transaction_row t)
    /\ StronglySorted
         (fun r1 r2 => String.leb (tr_timestamp r2) (tr_timestamp r1) = true) rows
    /\ (0 <= limit -> (length rows <= Z.to_nat limit)%nat)
    /\ (limit < 0
        \/ (length (filter (fun t => account_number t = number) (transactions (db w)))
            <= Z.to_nat limit)%nat ->
        rows ≡ₚ transaction_row <$>
                  filter (fun t => account_number t = number) (transactions (db w))).
Proof.
  intros Hf. rewrite get_transactions_run, Hf.
  set (mine := filter (fun t => account_number t = number) (transactions (db w))).
  eexists. split; [reflexivity|]. split_and!.
  - intros row Hrow. apply list_elem_of_fmap in Hrow as (t & -> & Ht).
    exists t. split_and!; [| |done].
    + pose proof (elem_of_prefix _ _ _ Ht (sql_limit_prefix limit _)) as Ht'.
      rewrite order_by_timestamp_desc_Permutation in Ht'.
      by apply list_elem_of_filter in Ht' as [_ Ht'].
    + pose proof (elem_of_prefix _ _ _ Ht (sql_limit_prefix limit _)) as Ht'.
      rewrite order_by_timestamp_desc_Permutation in Ht'.
      by apply list_elem_of_filter in Ht' as [Ht' _].
  - apply (StronglySorted_fmap _ newer_first); [done|].
    destruct (sql_limit_prefix limit (order_by_timestamp_desc mine)) as [rest Hrest].
    apply (StronglySorted_app_1_l _ _ rest). rewrite <- Hrest.
    apply order_by_timestamp_desc_sorted.
  - intros Hlim. rewrite length_fmap. unfold sql_limit.
    destruct (Z.ltb_spec limit 0); [lia|]. rewrite length_take. lia.
  - intros Hall. apply fmap_Permutation. unfold sql_limit.
    destruct (Z.ltb_spec limit 0); [apply order_by_timestamp_desc_Permutation|].
    destruct Hall as [?|Hlen]; [lia|].
    rewrite take_ge; [apply order_by_timestamp_desc_Permutation|].
    by rewrite order_by_timestamp_desc_Permutation.
Qed.

Lemma get_transactions_history_witness :
  let w := perform_all [CallDeposit "4081781022222222" 5 "first";
                        CallDeposit "4081781011111111" 9 "other";
                        CallDeposit "4081781022222222" 7 "second"] sample_world in
  exists rows,
    get_transactions "4081781022222222" 1 w = (Returned rows, later 1 (db w) w)
    /\ (length rows <= 1)%nat.
Proof.
  intros w.
  destruct (get_transactions_history "4081781022222222" 1 w)
    as (rows & Hrun & _ & _ & Hlen & _).
  - reflexivity.
  - exists rows. split; [exact Hrun|]. apply Hlen. lia.
Defined.

(** X23.  A successful deposit shows up in the history: right after it,
    [get_transactions] of the account with no limit (a negative one) contains
    the row (DEPOSIT, amount, description, timestamp of the deposit), and so
    does a successful withdrawal with its WITHDRAWAL row. *)
Theorem operation_appears_in_history (number : string) (X : Z) (descr : string)
    (w w1 : World) (m : message) (limit : Z) :
  limit < 0 ->
  sqlite_fault (env w1) (tick w1) = None ->
  (deposit number X descr w = (Returned (true, m), w1) ->
   exists rows,
     get_transactions number limit w1 = (Returned rows, later 1 (db w1) w1)
     /\ mkTransactionRow "DEPOSIT" X descr (clock_now (env w) (2 + tick w)) ∈ rows)
  /\ (withdraw number X descr w = (Returned (true, m), w1) ->
      exists rows,
        get_transactions number limit w1 = (Returned rows, later 1 (db w1) w1)
        /\ mkTransactionRow "WITHDRAWAL" X descr (clock_now (env w) (2 + tick w)) ∈ rows).
Proof.
  intros Hlim Hf. rewrite get_transactions_run, Hf. unfold sql_limit.
  destruct (Z.ltb_spec limit 0); [|lia].
  split; intros Hop; eexists; (split; [reflexivity|]); apply list_elem_of_fmap.
  - apply deposit_success in Hop as (a & _ & _ & _ & ->).
    exists (mkTransaction (transactions_seq (db w) + 1) number "DEPOSIT" X descr
              (clock_now (env w) (2 + tick w))).
    split; [done|]. rewrite order_by_timestamp_desc_Permutation. simpl.
    rewrite filter_app. apply elem_of_app. right.
    rewrite filter_cons_True by done. left.
  - apply withdraw_success in Hop as (a & _ & _ & _ & ->).
    exists (mkTransaction (transactions_seq (db w) + 1) number "WITHDRAWAL" X descr
              (clock_now (env w) (2 + tick w))).
    split; [done|]. rewrite order_by_timestamp_desc_Permutation. simpl.
    rewrite filter_app. apply elem_of_app. right.
    rewrite filter_cons_True by done. left.
Qed.

Lemma operation_appears_in_history_witness :
  let w1 := snd (deposit "4081781022222222" 250 "gift" sample_world) in
  exists rows,
    get_transactions "4081781022222222" (-1) w1 = (Returned rows, later 1 (db w1) w1)
    /\ mkTransactionRow "DEPOSIT" 250 "gift" "2024-03-01 12:00:00" ∈ rows.
Proof.
  intros w1.
  destruct (operation_appears_in_history "4081781022222222" 250 "gift" sample_world w1
              (Deposited 250 "RUB") (-1)) as [Hdep _].
  - lia.
  - reflexivity.
  - apply Hdep. vm_compute. reflexivity.
Defined.

(** ** The sample data *)

Lemma bind_keeps {A B} (I : World -> Prop) (c : Py A) (k : A -> Py B) (w : World) :
  (forall w, I w -> I (snd (c w))) ->
  (forall a w, I w -> I (snd (k a w))) ->
  I w -> I (snd (bind c k w)).
Proof.
  intros Hc Hk Hw. unfold bind. specialize (Hc w Hw).
  destruct (c w) as [[a|e] w1]; simpl in *; [by apply Hk|done].
Qed.

Lemma register_user_ledger sha user_data w :
  accounts (db (snd (register_user sha user_data w))) = accounts (db w)
  /\ transactions (db (snd (register_user sha user_data w))) = transactions (db w).
Proof.
  rewrite register_user_run.
  destruct (sqlite_fault (env w) (tick w)); [done|].
  destruct (List.find _ _); [done|].
  by destruct (sqlite_fault (env w) (1 + tick w)).
Qed.

Lemma authenticate_reads sha name password w :
  db (snd (authenticate sha name password w)) = db w.
Proof.
  rewrite authenticate_run.
  destruct (sqlite_fault (env w) (tick w)); [done|].
  destruct (List.find _ _); [|done]. by case_bool_decide.
Qed.

Lemma deposit_unknown_account number amt descr w :
  accounts (db w) !! number = None -> db (snd (deposit number amt descr w)) = db w.
Proof.
  intros Hnone. rewrite deposit_run, Hnone.
  destruct (amt <=? 0); [done|].
  by destruct (sqlite_fault (env w) (tick w)).
Qed.

(** X24.  [create_sample_data] never credits the accounts it opens.  It
    deposits to the numbers 40817810123456789 and 40817810987654321, of 17
    characters, while every generated account number has 16.  So in a
    database whose account numbers were all generated, whatever the
    environment: it writes no transaction row, and every account that exists
    afterwards is an account from before, unchanged, or has balance 0. *)
Theorem create_sample_data_deposits_nothing (sha : string -> string) (w : World) :
  (forall number, is_Some (accounts (db w) !! number) -> well_formed_number number) ->
  let w' := snd (create_sample_data sha w) in
  transactions (db w') = transactions (db w)
  /\ forall number a,
       accounts (db w') !! number = Some a ->
       accounts (db w) !! number = Some a \/ balance a = 0.
Proof.
  intros Hnum.
  set (I := fun w1 : World =>
    transactions (db w1) = transactions (db w)
    /\ (forall number, is_Some (accounts (db w1) !! number) -> well_formed_number number)
    /\ (forall number a, accounts (db w1) !! number = Some a ->
          accounts (db w) !! number = Some a \/ balance a = 0)).
  assert (forall user_data w1, I w1 -> I (snd (register_user sha user_data w1))) as Hreg.
  { intros user_data w1 Hw1. unfold I.
    destruct (register_user_ledger sha user_data w1) as [-> ->]. exact Hw1. }
  assert (forall name password w1, I w1 -> I (snd (authenticate sha name password w1)))
    as Hauth.
  { intros name password w1 Hw1. unfold I. by rewrite authenticate_reads. }
  assert (forall uid kind cur limit w1, I w1 ->
            I (snd (create_account uid kind cur limit w1))) as Hcreate.
  { intros uid kind cur limit w1 (Htx & Hwf & Hbal). rewrite create_account_run.
    cbv zeta.
    destruct (sqlite_fault (env w1) (2 + tick w1)); [done|].
    destruct (accounts (db w1) !! generated_number w1) eqn:Hfresh; [done|].
    unfold I. simpl. split_and!; [done| |].
    - intros number Hn. apply lookup_insert_is_Some' in Hn as [<-|Hn].
      + apply generated_number_well_formed.
      + by apply Hwf.
    - intros number a Ha. apply lookup_insert_Some in Ha as [[<- <-]|[_ Ha]].
      + by right.
      + by apply Hbal. }
  assert (forall number amt descr w1,
            String.length number = 17%nat -> I w1 ->
            I (snd (deposit number amt descr w1))) as Hdep.
  { intros number amt descr w1 Hlen (Htx & Hwf & Hbal). unfold I.
    rewrite deposit_unknown_account; [done|].
    destruct (accounts (db w1) !! number) eqn:Hn; [|done].
    specialize (Hwf number ltac:(by rewrite Hn)).
    apply well_formed_number_length in Hwf. lia. }
  assert (I w) as Hw by (unfold I; auto).
  assert (I (snd (create_sample_data sha w))) as (Htx & _ & Hbal); [|by split].
  unfold create_sample_data.
  apply bind_keeps; [apply Hreg| |done]. intros _ w1 Hw1.
  apply bind_keeps; [apply Hreg| |done]. intros _ w2 Hw2.
  apply bind_keeps; [apply Hauth| |done]. intros user1 w3 Hw3.
  apply bind_keeps; [| |done].
  - intros w4 Hw4. destruct user1 as [user1|]; [|done].
    apply bind_keeps; [apply Hcreate| |done]. intros _ w5 Hw5.
    apply bind_keeps; [intros w7 Hw7; by apply Hdep|done|done].
  - intros _ w4 Hw4.
    apply bind_keeps; [apply Hauth| |done]. intros user2 w5 Hw5.
    destruct user2 as [user2|]; [|done].
    apply bind_keeps; [apply Hcreate| |done]. intros _ w6 Hw6.
    apply bind_keeps; [intros w7 Hw7; by apply Hdep|done|done].
Qed.

Lemma create_sample_data_deposits_nothing_witness :
  let w' := snd (create_sample_data toy_digest fresh_world) in
  transactions (db w') = []
  /\ forall number a, accounts (db w') !! number = Some a -> balance a = 0.
Proof.
  intros w'.
  destruct (create_sample_data_deposits_nothing toy_digest fresh_world) as [Htx Hbal].
  - intros number Hn. vm_compute in Hn. destruct Hn as [a Ha]. discriminate Ha.
  - split; [exact Htx|]. intros number a Ha.
    destruct (Hbal number a Ha) as [Hold|Hzero]; [|exact Hzero].
    vm_compute in Hold. discriminate Hold.
Defined.

(** * The ledger on binary64 amounts: properties *)

Section OnDoubles.

Import Doubles.
Local Open Scope py64_scope.

(** ** Running the methods *)

Lemma alter_to_insert_d (f : Account -> Account) (k : string) (a : Account)
    (m : gmap string Account) :
  m !! k = Some a -> alter f k m = <[k := f a]> m.
Proof.
  intros Hk. apply map_eq. intros j.
  destruct (decide (k = j)) as [->|Hne].
  - by rewrite lookup_alter_eq, lookup_insert_eq, Hk.
  - by rewrite lookup_alter_ne, lookup_insert_ne.
Qed.

Lemma get_account_run_d number w :
  get_account number w =
    match sqlite_fault (env w) (tick w) with
    | Some e => (Raised e, later 1 (db w) w)
    | None => (Returned (accounts (db w) !! number), later 1 (db w) w)
    end.
Proof.
  unfold get_account, fetch_all_dict, bind, execute_query, select_account, ret.
  destruct (sqlite_fault _ _); [done|].
  by rewrite head_option_list.
Qed.

Lemma deposit_run_d number amt descr w :
  deposit number amt descr w =
    if PrimFloat.leb amt PrimFloat.zero then (Returned (false, AmountNotPositive), w)
    else
      match sqlite_fault (env w) (tick w) with
      | Some e => (Returned (false, DepositError e), later 1 (db w) w)
      | None =>
          match accounts (db w) !! number with
          | None => (Returned (false, AccountNotFound), later 1 (db w) w)
          | Some a =>
              match sqlite_fault (env w) (1 + tick w) with
              | Some e => (Returned (false, DepositError e), later 2 (db w) w)
              | None =>
                  let d1 := credit number amt (db w) in
                  match sqlite_fault (env w) (3 + tick w) with
                  | Some e => (Returned (false, DepositError e), later 4 d1 w)
                  | None =>
                      (Returned (true, Deposited amt (currency a)),
                       later 4 (append_transaction number "DEPOSIT" amt descr
                                  (clock_now (env w) (2 + tick w)) d1) w)
                  end
              end
          end
      end.
Proof.
  unfold deposit. destruct (PrimFloat.leb amt PrimFloat.zero); [done|].
  unfold try_except, bind at 1. rewrite get_account_run_d.
  destruct (sqlite_fault (env w) (tick w)); [done|].
  destruct (accounts (db w) !! number); [|done].
  unfold bind, execute_query, datetime_now, ret; simpl.
  destruct (sqlite_fault (env w) (S (tick w))); simpl; [done|].
  by destruct (sqlite_fault (env w) (S (S (S (tick w))))).
Qed.

Lemma withdraw_run_d number amt descr w :
  withdraw number amt descr w =
    if PrimFloat.leb amt PrimFloat.zero then (Returned (false, AmountNotPositive), w)
    else
      match sqlite_fault (env w) (tick w) with
      | Some e => (Returned (false, WithdrawError e), later 1 (db w) w)
      | None =>
          match accounts (db w) !! number with
          | None => (Returned (false, AccountNotFound), later 1 (db w) w)
          | Some a =>
              if PrimFloat.ltb (available a) amt
              then (Returned (false, InsufficientFunds (available a) (currency a)),
                    later 1 (db w) w)
              else
                match sqlite_fault (env w) (1 + tick w) with
                | Some e => (Returned (false, WithdrawError e), later 2 (db w) w)
                | None =>
                    let d1 := debit number amt (db w) in
                    match sqlite_fault (env w) (3 + tick w) with
                    | Some e => (Returned (false, WithdrawError e), later 4 d1 w)
                    | None =>
                        (Returned (true, Withdrawn amt (currency a)),
                         later 4 (append_transaction number "WITHDRAWAL" amt descr
                                    (clock_now (env w) (2 + tick w)) d1) w)
                    end
                end
          end
      end.
Proof.
  unfold withdraw. destruct (PrimFloat.leb amt PrimFloat.zero); [done|].
  unfold try_except, bind at 1. rewrite get_account_run_d.
  destruct (sqlite_fault (env w) (tick w)); [done|].
  destruct (accounts (db w) !! number) as [a|]; [|done].
  cbv zeta. unfold available. destruct (PrimFloat.ltb _ amt); [done|].
  unfold bind, execute_query, datetime_now, ret; simpl.
  destruct (sqlite_fault (env w) (S (tick w))); simpl; [done|].
  by destruct (sqlite_fault (env w) (S (S (S (tick w))))).
Qed.

Lemma transfer_run_d from_account to_account amt descr w :
  transfer from_account to_account amt descr w =
    if PrimFloat.leb amt PrimFloat.zero then (Returned (false, AmountNotPositive), w)
    else
      match sqlite_fault (env w) (tick w) with
      | Some e => (Returned (false, TransferError e), later 1 (db w) w)
      | None =>
          match sqlite_fault (env w) (1 + tick w) with
          | Some e => (Returned (false, TransferError e), later 2 (db w) w)
          | None =>
              match accounts (db w) !! from_account, accounts (db w) !! to_account with
              | None, _ =>
                  (Returned (false, SourceNotFound from_account), later 2 (db w) w)
              | Some _, None =>
                  (Returned (false, DestinationNotFound to_account), later 2 (db w) w)
              | Some a, Some b =>
                  if negb (bool_decide (currency a = currency b))
                  then (Returned (false, CurrencyMismatch), later 2 (db w) w)
                  else if PrimFloat.ltb (available a) amt
                  then (Returned (false, SourceInsufficientFunds (available a)),
                        later 2 (db w) w)
                  else transfer_legs from_account to_account amt descr a
                                     (later 2 (db w) w)
              end
          end
      end.
Proof.
  unfold transfer. destruct (PrimFloat.leb amt PrimFloat.zero); [done|].
  unfold try_except, bind at 1. rewrite get_account_run_d.
  destruct (sqlite_fault (env w) (tick w)); [done|].
  unfold bind at 1. rewrite get_account_run_d. simpl.
  destruct (sqlite_fault (env w) (S (tick w))); [done|].
  destruct (accounts (db w) !! from_account) as [a|]; [|done].
  destruct (accounts (db w) !! to_account) as [b|]; [|done].
  destruct (negb _); [done|]. unfold available.
  destruct (PrimFloat.ltb _ amt); [done|].
  unfold transfer_legs, transfer_out_description, transfer_in_description, later.
  unfold bind at 1. simpl.
  destruct (withdraw _ _ _ _) as [[[[|] msg]|e] w3]; simpl; try done.
  unfold bind at 1.
  destruct (deposit _ _ _ _) as [[[[|] msg']|e] w4]; simpl; try done.
  unfold bind at 1.
  by destruct (deposit _ _ _ _) as [[r|e] w5].
Qed.




Lemma storage_healthy_now_d w :
  storage_healthy w -> sqlite_fault (env w) (tick w) = None.
Proof. intros H. by apply H. Qed.

Lemma storage_healthy_at_d w n :
  storage_healthy w -> sqlite_fault (env w) (n + tick w) = None.
Proof. intros H. apply H. lia. Qed.

Lemma storage_healthy_later_d n d w : storage_healthy w -> storage_healthy (later n d w).
Proof. intros H k Hk. apply H. simpl in Hk. lia. Qed.

Lemma deposit_healthy_d number amt descr w a :
  storage_healthy w ->
  accounts (db w) !! number = Some a ->
  PrimFloat.leb amt PrimFloat.zero = false ->
  deposit number amt descr w =
    (Returned (true, Deposited amt (currency a)),
     later 4 (append_transaction number "DEPOSIT" amt descr
                (clock_now (env w) (2 + tick w)) (credit number amt (db w))) w).
Proof.
  intros Hw Ha Hpos. rewrite deposit_run_d, Ha, Hpos.
  rewrite (storage_healthy_now_d w), (storage_healthy_at_d w 1),
    (storage_healthy_at_d w 3) by done.
  done.
Qed.

Lemma withdraw_healthy_d number amt descr w a :
  storage_healthy w ->
  accounts (db w) !! number = Some a ->
  PrimFloat.leb amt PrimFloat.zero = false ->
  PrimFloat.ltb (available a) amt = false ->
  withdraw number amt descr w =
    (Returned (true, Withdrawn amt (currency a)),
     later 4 (append_transaction number "WITHDRAWAL" amt descr
                (clock_now (env w) (2 + tick w)) (debit number amt (db w))) w).
Proof.
  intros Hw Ha Hpos Hav. rewrite withdraw_run_d, Ha, Hpos, Hav.
  rewrite (storage_healthy_now_d w), (storage_healthy_at_d w 1),
    (storage_healthy_at_d w 3) by done.
  done.
Qed.

(** ** The overdraft limit *)

(** C5.  An account opened with overdraft limit 0.02 receives 0.03; the
    withdrawal of 0.05 passes the check [amount > balance + overdraft_limit],
    since 0.03 + 0.02 is 0.05 in binary64, and succeeds; it leaves the balance
    0.03 - 0.05 = -0.020000000000000004, which is below -0.02: the invariant
    [balance >= -overdraft_limit] does not hold after it. *)
Example overdraft_limit_breached :
  let number := "4081781010000000" in
  let opened := create_account 1 "Checking" "RUB" 0.02%float fresh_world in
  let funded := deposit number 0.03%float "" (snd opened) in
  let drawn := withdraw number 0.05%float "" (snd funded) in
  fst opened = Returned (true, AccountCreated number)
  /\ fst funded = Returned (true, Deposited 0.03%float "RUB")
  /\ fst drawn = Returned (true, Withdrawn 0.05%float "RUB")
  /\ accounts (db (snd drawn)) !! number
     = Some (mkAccount 1 "Checking" "RUB" (-0.020000000000000004)%float 0.02%float
               "2024-03-01 12:00:00")
  /\ PrimFloat.ltb (-0.020000000000000004)%float (PrimFloat.opp 0.02%float) = true.
Proof. vm_compute. repeat split; reflexivity. Qed.

(** ** Transfer from an account to itself *)

(** C9, as stated, fails: an account with limit 0.5 holds 0.01; the transfer
    of 0.03 from the account to itself succeeds and leaves the balance
    (0.01 - 0.03) + 0.03 = 0.010000000000000002, which is not 0.01. *)
Lemma transfer_to_self_changes_balance :
  let number := "4081781010000000" in
  let opened := create_account 1 "Checking" "RUB" 0.5%float fresh_world in
  let funded := deposit number 0.01%float "" (snd opened) in
  let moved := transfer number number 0.03%float "" (snd funded) in
  balance <$> accounts (db (snd funded)) !! number = Some 0.01%float
  /\ fst moved = Returned (true, Transferred 0.03%float "RUB")
  /\ balance <$> accounts (db (snd moved)) !! number = Some 0.010000000000000002%float
  /\ PrimFloat.eqb 0.010000000000000002%float 0.01%float = false.
Proof. vm_compute. repeat split; reflexivity. Qed.

(** C9, amended.  A transfer from an account to itself of a finite amount
    [X] that passes the checks of the code (not [X <= 0], not
    [X > balance + overdraft_limit]) succeeds when the store does not fail.
    The balance becomes [(balance - X) + X] as binary64 computes it, which is
    the old balance when the two operations are exact and can differ from it
    by a rounding error otherwise; no other column and no other account
    changes, and the log gains exactly a WITHDRAWAL row of [X] and then a
    DEPOSIT row of [X] on the account. *)
Theorem transfer_to_self (A : string) (X : float) (descr : string) (w : World)
    (a : Account) :
  storage_healthy w ->
  accounts (db w) !! A = Some a ->
  stored a ->
  PrimFloat.is_finite X = true ->
  PrimFloat.leb X PrimFloat.zero = false ->
  PrimFloat.ltb (PrimFloat.add (balance a) (overdraft_limit a)) X = false ->
  exists w',
    transfer A A X descr w = (Returned (true, Transferred X (currency a)), w')
    /\ accounts (db w') =
         <[A := set_balance (PrimFloat.add (PrimFloat.sub (balance a) X) X) a]>
           (accounts (db w))
    /\ transactions (db w') =
         (transactions (db w) ++
           [ mkTransaction (transactions_seq (db w) + 1) A "WITHDRAWAL" X
               (transfer_out_description A descr) (clock_now (env w) (4 + tick w));
             mkTransaction (transactions_seq (db w) + 1 + 1) A "DEPOSIT" X
               (transfer_in_description A descr) (clock_now (env w) (8 + tick w)) ])%list
    /\ users (db w') = users (db w).
Proof.
  intros Hw Ha _ _ Hpos Hav. rewrite transfer_run_d, Ha, Hpos.
  rewrite (storage_healthy_now_d w), (storage_healthy_at_d w 1) by done.
  rewrite bool_decide_eq_true_2 by done. simpl negb. cbv iota.
  unfold available at 1. rewrite Hav.
  unfold transfer_legs.
  rewrite (withdraw_healthy_d _ _ _ _ a);
    [|by apply storage_healthy_later_d|done|done|done].
  erewrite deposit_healthy_d; [|by do 2 apply storage_healthy_later_d| |done].
  2: { simpl. by rewrite lookup_alter_eq, Ha. }
  eexists. split; [reflexivity|]. simpl. split_and!.
  - apply map_eq. intros j. destruct (decide (A = j)) as [<-|Hne].
    + by rewrite !lookup_alter_eq, lookup_insert_eq, Ha.
    + by rewrite !lookup_alter_ne, lookup_insert_ne.
  - by rewrite <- app_assoc.
  - done.
Qed.

Lemma transfer_to_self_witness :
  exists w',
    transfer "4081781011111111" "4081781011111111" 0.03%float "" (sample_world calm_env)
      = (Returned (true, Transferred 0.03%float "RUB"), w')
    /\ accounts (db w') !! "4081781011111111"
       = Some (mkAccount 1 "Checking" "RUB" 0.010000000000000002%float 0.5%float
                 "2024-01-10 09:00:00").
Proof.
  destruct (transfer_to_self "4081781011111111" 0.03%float "" (sample_world calm_env)
              (mkAccount 1 "Checking" "RUB" 0.01%float 0.5%float "2024-01-10 09:00:00"))
    as (w' & Hrun & Hacc & _).
  - intros n _. reflexivity.
  - reflexivity.
  - split; reflexivity.
  - reflexivity.
  - reflexivity.
  - reflexivity.
  - exists w'. split; [exact Hrun|]. rewrite Hacc. reflexivity.
Defined.

(** ** Balance and ledger *)







(** ** Deposit *)

(** X1.  [deposit] of a float while the store does not fail: an amount with
    [amount <= 0] is refused as not positive and nothing at all changes;
    otherwise an unknown account is refused as not found and the database is
    as before; otherwise, for a finite amount, the deposit succeeds: the
    balance becomes [balance + amount] as binary64 rounds it, the other
    columns and accounts are as before, and one DEPOSIT row of the amount is
    appended. *)
Theorem deposit_outcomes (number : string) (X : float) (descr : string) (w : World) :
  storage_healthy w ->
  (PrimFloat.leb X PrimFloat.zero = true ->
     deposit number X descr w = (Returned (false, AmountNotPositive), w))
  /\ (PrimFloat.leb X PrimFloat.zero = false -> accounts (db w) !! number = None ->
        exists w',
          deposit number X descr w = (Returned (false, AccountNotFound), w')
          /\ db w' = db w)
  /\ (forall a, accounts (db w) !! number = Some a -> stored a ->
        PrimFloat.is_finite X = true ->
        PrimFloat.leb X PrimFloat.zero = false ->
        exists w',
          deposit number X descr w = (Returned (true, Deposited X (currency a)), w')
          /\ accounts (db w') =
               <[number := set_balance (PrimFloat.add (balance a) X) a]>
                 (accounts (db w))
          /\ transactions (db w') =
               (transactions (db w) ++
                  [mkTransaction (transactions_seq (db w) + 1) number "DEPOSIT" X
                     descr (clock_now (env w) (2 + tick w))])%list
          /\ users (db w') = users (db w)).
Proof.
  intros Hw. split_and!.
  - intros Hx. by rewrite deposit_run_d, Hx.
  - intros Hx Hnone.
    rewrite deposit_run_d, Hx, Hnone, (storage_healthy_now_d w) by done. by eexists.
  - intros a Ha _ _ Hx. rewrite (deposit_healthy_d _ _ _ _ a) by done.
    eexists. split; [reflexivity|]. simpl. split_and!; [|done..].
    exact (alter_to_insert_d (add_balance X) _ _ _ Ha).
Qed.

Lemma deposit_outcomes_witness :
  exists w',
    deposit "4081781022222222" 0.2%float "gift" (sample_world calm_env)
      = (Returned (true, Deposited 0.2%float "RUB"), w')
    /\ accounts (db w') !! "4081781022222222"
       = Some (mkAccount 2 "Savings" "RUB" 0.30000000000000004%float 0%float
                 "2024-01-11 09:00:00").
Proof.
  destruct (deposit_outcomes "4081781022222222" 0.2%float "gift" (sample_world calm_env))
    as (_ & _ & Hok).
  - intros n _. reflexivity.
  - destruct (Hok (mkAccount 2 "Savings" "RUB" 0.1%float 0%float "2024-01-11 09:00:00"))
      as (w' & Hrun & Hacc & _).
    + reflexivity.
    + split; reflexivity.
    + reflexivity.
    + reflexivity.
    + exists w'. split; [exact Hrun|]. rewrite Hacc. reflexivity.
Defined.

(** X2.  A deposit followed by the withdrawal of the same finite amount,
    while the store does not fail: the deposit succeeds, and when the
    withdrawal passes its funds check against the new balance it succeeds and
    leaves the balance [(balance + X) - X] as binary64 computes it, which
    need not be the old balance (0.1, then 0.2 in and out, leaves
    0.10000000000000003); the log gains the DEPOSIT row and then the
    WITHDRAWAL row. *)
Theorem deposit_then_withdraw (number : string) (X : float) (descr1 descr2 : string)
    (w : World) (a : Account) :
  storage_healthy w ->
  accounts (db w) !! number = Some a ->
  stored a ->
  PrimFloat.is_finite X = true ->
  PrimFloat.leb X PrimFloat.zero = false ->
  PrimFloat.ltb (PrimFloat.add (PrimFloat.add (balance a) X) (overdraft_limit a)) X
    = false ->
  exists w1 w2,
    deposit number X descr1 w = (Returned (true, Deposited X (currency a)), w1)
    /\ withdraw number X descr2 w1 = (Returned (true, Withdrawn X (currency a)), w2)
    /\ accounts (db w2) =
         <[number := set_balance (PrimFloat.sub (PrimFloat.add (balance a) X) X) a]>
           (accounts (db w))
    /\ transactions (db w2) =
         (transactions (db w) ++
            [mkTransaction (transactions_seq (db w) + 1) number "DEPOSIT" X
               descr1 (clock_now (env w) (2 + tick w));
             mkTransaction (transactions_seq (db w) + 1 + 1) number "WITHDRAWAL" X
               descr2 (clock_now (env w) (6 + tick w))])%list.
Proof.
  intros Hw Ha _ _ Hx Hav.
  rewrite (deposit_healthy_d _ _ _ _ a) by done.
  eexists. eexists. split; [reflexivity|].
  rewrite (withdraw_healthy_d _ _ _ _ (add_balance X a)).
  - split; [reflexivity|]. simpl. split.
    + apply map_eq. intros j. destruct (decide (number = j)) as [<-|Hne].
      * by rewrite !lookup_alter_eq, lookup_insert_eq, Ha.
      * by rewrite !lookup_alter_ne, lookup_insert_ne.
    + by rewrite <- app_assoc.
  - by apply storage_healthy_later_d.
  - simpl. by rewrite lookup_alter_eq, Ha.
  - done.
  - exact Hav.
Qed.

Lemma deposit_then_withdraw_witness :
  exists w1 w2,
    deposit "4081781022222222" 0.2%float "in" (sample_world calm_env)
      = (Returned (true, Deposited 0.2%float "RUB"), w1)
    /\ withdraw "4081781022222222" 0.2%float "out" w1
       = (Returned (true, Withdrawn 0.2%float "RUB"), w2)
    /\ balance <$> accounts (db w2) !! "4081781022222222"
       = Some 0.10000000000000003%float
    /\ PrimFloat.eqb 0.10000000000000003%float 0.1%float = false.
Proof.
  destruct (deposit_then_withdraw "4081781022222222" 0.2%float "in" "out"
              (sample_world calm_env)
              (mkAccount 2 "Savings" "RUB" 0.1%float 0%float "2024-01-11 09:00:00"))
    as (w1 & w2 & Hd & Hw & Hacc & _).
  - intros n _. reflexivity.
  - reflexivity.
  - split; reflexivity.
  - reflexivity.
  - reflexivity.
  - reflexivity.
  - exists w1, w2. split; [exact Hd|]. split; [exact Hw|]. rewrite Hacc.
    split; reflexivity.
Defined.

(** ** Transfer with a failing log *)

(** X8.  When the store fails only at the INSERT of the destination's DEPOSIT
    row, a transfer of a finite amount between two distinct accounts that
    passes its checks reports failure; the destination has nevertheless been
    credited, and the compensating deposit refunds the source: the
    destination holds [balance + X] and the source [(balance - X) + X], as
    binary64 computes them.  The log holds the WITHDRAWAL and the refund on
    the source and nothing on the destination. *)
Theorem transfer_credits_twice (A B : string) (X : float) (descr : string) (w : World)
    (a b : Account) (e : sqlite3_Error) :
  (forall n : nat, n ≠ (9 + tick w)%nat -> sqlite_fault (env w) n = None) ->
  sqlite_fault (env w) (9 + tick w) = Some e ->
  A ≠ B ->
  accounts (db w) !! A = Some a ->
  accounts (db w) !! B = Some b ->
  stored a -> stored b ->
  currency a = currency b ->
  PrimFloat.is_finite X = true ->
  PrimFloat.leb X PrimFloat.zero = false ->
  PrimFloat.ltb (PrimFloat.add (balance a) (overdraft_limit a)) X = false ->
  exists w',
    transfer A B X descr w = (Returned (false, TransferDepositFailed), w')
    /\ accounts (db w') =
         <[B := set_balance (PrimFloat.add (balance b) X) b]>
           (<[A := set_balance (PrimFloat.add (PrimFloat.sub (balance a) X) X) a]>
              (accounts (db w)))
    /\ transactions (db w') =
         (transactions (db w) ++
           [ mkTransaction (transactions_seq (db w) + 1) A "WITHDRAWAL" X
               (transfer_out_description B descr) (clock_now (env w) (4 + tick w));
             mkTransaction (transactions_seq (db w) + 1 + 1) A "DEPOSIT" X
               "Откат перевода" (clock_now (env w) (12 + tick w)) ])%list.
Proof.
  intros Hok Hfail Hne Ha Hb _ _ Hcur _ Hx Hav.
  assert (forall i : nat, i ≠ 9%nat -> sqlite_fault (env w) (i + tick w) = None) as Hq
    by (intros i Hi; apply Hok; lia).
  pose proof (Hq 0%nat ltac:(done)) as H0. pose proof (Hq 1%nat ltac:(done)) as H1.
  pose proof (Hq 2%nat ltac:(done)) as H2. pose proof (Hq 3%nat ltac:(done)) as H3.
  pose proof (Hq 5%nat ltac:(done)) as H5. pose proof (Hq 6%nat ltac:(done)) as H6.
  pose proof (Hq 7%nat ltac:(done)) as H7. pose proof (Hq 10%nat ltac:(done)) as H10.
  pose proof (Hq 11%nat ltac:(done)) as H11. pose proof (Hq 13%nat ltac:(done)) as H13.
  simpl in H0, H1, H2, H3, H5, H6, H7, H10, H11, H13, Hfail. clear Hq Hok.
  rewrite transfer_run_d, Ha, Hb, Hx. simpl.
  rewrite H0, H1.
  rewrite bool_decide_eq_true_2 by done. simpl negb. cbv iota.
  unfold available at 1. rewrite Hav.
  unfold transfer_legs.
  rewrite withdraw_run_d, Hx. simpl. rewrite Ha, H2, H3, H5.
  unfold available at 1. rewrite Hav.
  rewrite deposit_run_d, Hx. simpl.
  rewrite H6, H7, Hfail.
  rewrite lookup_alter_ne, Hb by done.
  rewrite deposit_run_d, Hx. simpl.
  rewrite H10, H11, H13.
  rewrite lookup_alter_ne, lookup_alter_eq, Ha by done. simpl.
  eexists. split; [reflexivity|]. simpl. split.
  - apply map_eq. intros j.
    destruct (decide (A = j)) as [<-|HA].
    + rewrite lookup_alter_eq, lookup_alter_ne, lookup_alter_eq by done.
      by rewrite lookup_insert_ne, lookup_insert_eq, Ha.
    + rewrite lookup_alter_ne by done.
      destruct (decide (B = j)) as [<-|HB].
      * by rewrite lookup_alter_eq, lookup_alter_ne, lookup_insert_eq, Hb.
      * by rewrite !lookup_alter_ne, !lookup_insert_ne.
  - by rewrite <- app_assoc.
Qed.

Lemma transfer_credits_twice_witness :
  exists w',
    transfer "4081781011111111" "4081781022222222" 0.03%float ""
        (sample_world credit_log_outage_env)
      = (Returned (false, TransferDepositFailed), w')
    /\ balance <$> accounts (db w') !! "4081781011111111"
       = Some 0.010000000000000002%float
    /\ balance <$> accounts (db w') !! "4081781022222222" = Some 0.13%float.
Proof.
  destruct (transfer_credits_twice "4081781011111111" "4081781022222222" 0.03%float ""
              (sample_world credit_log_outage_env)
              (mkAccount 1 "Checking" "RUB" 0.01%float 0.5%float "2024-01-10 09:00:00")
              (mkAccount 2 "Savings" "RUB" 0.1%float 0%float "2024-01-11 09:00:00")
              "disk I/O error") as (w' & Hrun & Hacc & _).
  - intros n Hn. simpl in *. rewrite bool_decide_eq_false_2 by exact Hn. reflexivity.
  - reflexivity.
  - done.
  - reflexivity.
  - reflexivity.
  - split; reflexivity.
  - split; reflexivity.
  - reflexivity.
  - reflexivity.
  - reflexivity.
  - reflexivity.
  - exists w'. split; [exact Hrun|]. rewrite Hacc. split; reflexivity.
Defined.

(** ** Transfer between two accounts *)

(** X25.  On binary64 amounts, a transfer of a finite amount [X] between two
    distinct accounts of one currency that passes the checks of the code (not
    [X <= 0], not [X > balance + overdraft_limit] of the source) succeeds
    when the store does not fail: the source holds [balance - X] and the
    destination [balance + X], each rounded once, no other account changes,
    and the log gains the WITHDRAWAL row on the source and then the DEPOSIT
    row on the destination. *)
Theorem transfer_rounds_each_leg (A B : string) (X : float) (descr : string)
    (w : World) (a b : Account) :
  storage_healthy w ->
  A ≠ B ->
  accounts (db w) !! A = Some a ->
  accounts (db w) !! B = Some b ->
  stored a -> stored b ->
  currency a = currency b ->
  PrimFloat.is_finite X = true ->
  PrimFloat.leb X PrimFloat.zero = false ->
  PrimFloat.ltb (PrimFloat.add (balance a) (overdraft_limit a)) X = false ->
  exists w',
    transfer A B X descr w = (Returned (true, Transferred X (currency a)), w')
    /\ accounts (db w') =
         <[B := set_balance (PrimFloat.add (balance b) X) b]>
           (<[A := set_balance (PrimFloat.sub (balance a) X) a]> (accounts (db w)))
    /\ transactions (db w') =
         (transactions (db w) ++
           [ mkTransaction (transactions_seq (db w) + 1) A "WITHDRAWAL" X
               (transfer_out_description B descr) (clock_now (env w) (4 + tick w));
             mkTransaction (transactions_seq (db w) + 1 + 1) B "DEPOSIT" X
               (transfer_in_description A descr) (clock_now (env w) (8 + tick w)) ])%list.
Proof.
  intros Hw Hne Ha Hb _ _ Hcur _ Hpos Hav. rewrite transfer_run_d, Ha, Hb, Hpos.
  rewrite (storage_healthy_now_d w), (storage_healthy_at_d w 1) by done.
  rewrite bool_decide_eq_true_2 by done. simpl negb. cbv iota.
  unfold available at 1. rewrite Hav.
  unfold transfer_legs.
  rewrite (withdraw_healthy_d _ _ _ _ a);
    [|by apply storage_healthy_later_d|done|done|done].
  erewrite deposit_healthy_d; [|by do 2 apply storage_healthy_later_d| |done].
  2: { simpl. by rewrite lookup_alter_ne, Hb. }
  eexists. split; [reflexivity|]. simpl. split.
  - apply map_eq. intros j. destruct (decide (B = j)) as [<-|HB].
    + by rewrite lookup_alter_eq, lookup_alter_ne, lookup_insert_eq, Hb.
    + rewrite lookup_alter_ne, lookup_insert_ne by done.
      destruct (decide (A = j)) as [<-|HA].
      * by rewrite lookup_alter_eq, lookup_insert_eq, Ha.
      * by rewrite lookup_alter_ne, lookup_insert_ne.
  - by rewrite <- app_assoc.
Qed.

Lemma transfer_rounds_each_leg_witness :
  exists w',
    transfer "4081781011111111" "4081781022222222" 0.03%float "rent"
        (sample_world calm_env)
      = (Returned (true, Transferred 0.03%float "RUB"), w')
    /\ balance <$> accounts (db w') !! "4081781011111111"
       = Some (-0.019999999999999997)%float
    /\ balance <$> accounts (db w') !! "4081781022222222" = Some 0.13%float.
Proof.
  destruct (transfer_rounds_each_leg "4081781011111111" "4081781022222222" 0.03%float
              "rent" (sample_world calm_env)
              (mkAccount 1 "Checking" "RUB" 0.01%float 0.5%float "2024-01-10 09:00:00")
              (mkAccount 2 "Savings" "RUB" 0.1%float 0%float "2024-01-11 09:00:00"))
    as (w' & Hrun & Hacc & _).
  - intros n _. reflexivity.
  - done.
  - reflexivity.
  - reflexivity.
  - split; reflexivity.
  - split; reflexivity.
  - reflexivity.
  - reflexivity.
  - reflexivity.
  - reflexivity.
  - exists w'. split; [exact Hrun|]. rewrite Hacc. split; reflexivity.
Defined.

End OnDoubles.
